(** * Terrorism-incident charts: data preparation and the client-side filter

    A shallow embedding of the two scripts of the repository:

    - [target_types_&_casualities.py]: [load_and_prepare_data],
      [create_color_mapping], [create_visualization] and the JavaScript
      callback that [create_visualization] attaches to the year slider and
      to the check boxes;
    - [attack_types_plot.py]: the [attack_pivot] aggregation.

    Conventions of the embedding.

    - A data frame is its list of column names and its list of records; the
      records carry the pandas index label they were read with, which every
      row operation of pandas keeps.
    - A CSV cell is missing ([NaN]), a number or a text.  A finite number
      is an exact rational ([Q]); a year may also be one of the two
      infinities, which line 45 cannot convert.  The arithmetic of the
      machine (the wrap-around of [int64] columns, the rounding of doubles)
      is a parameter, [Arithmetic], of the derived columns and of the
      rescaled axis ranges; comparisons and the sums of the statistics are
      exact.
    - Library functions whose tables or algorithms are not part of the
      repository (the text-to-number conversion of pandas, the random
      choice behind [DataFrame.sample], the Bokeh palettes, the number
      formatting of Python and JavaScript) are variables of the sections
      that use them.
    - A Python exception is a value of [result]; [print] output is not
      modelled, the exceptions its arguments can raise are. *)

From Stdlib Require Import String Ascii Bool Arith Lia ZArith QArith List.
From Stdlib Require Import DecimalString Sorted Lqa Qround.
Import ListNotations.

Set Implicit Arguments.

(** ** Cells, records and frames *)

(** A float that is not [NaN]: a finite number or an infinity.  Only the
    year column is given infinite values: an infinite year makes line 45
    raise, an infinite count would only be carried along. *)
Inductive extended : Type :=
| Finite : Q -> extended
| Infinite : bool -> extended.

(** [Infinite true] is minus infinity, [Infinite false] plus infinity. *)
Definition minus_infinity : extended := Infinite true.
Definition plus_infinity : extended := Infinite false.

Coercion Finite : Q >-> extended.

(** A CSV cell of a column whose numbers are of type [N]: missing, a
    number or a text. *)
Inductive cell (N : Type) : Type :=
| NaN : cell N
| Num : N -> cell N
| Str : string -> cell N.

Arguments NaN {N}.
Arguments Num {N} _.
Arguments Str {N} _.

(** The text columns hold a label or are missing. *)
Definition label := option string.

(** One line of the CSV file as [pd.read_csv] returns it, restricted to the
    columns the two scripts read.  A field whose column is absent from the
    header is never read: both scripts fail before.  A year cell may be
    infinite, a count cell is finite. *)
Module Raw.
Record t : Type := mk
  { ix : nat;
    iyear : cell extended;
    attacktype1_txt : label;
    targtype1_txt : label;
    nkill : cell Q;
    nwound : cell Q }.
End Raw.

Record DataFrame : Type := mkDataFrame
  { columns : list string;
    records : list Raw.t }.

(** A record after lines 28-30: the three numeric columns went through
    [pd.to_numeric(errors='coerce')], the two counts through [fillna(0)]. *)
Module Coerced.
Record t : Type := mk
  { ix : nat;
    iyear : option extended;
    targtype1_txt : label;
    nkill : Q;
    nwound : Q }.
End Coerced.

(** A record after [dropna(subset=['iyear', 'targtype1_txt'])]: the year and
    the target type are present. *)
Module Kept.
Record t : Type := mk
  { ix : nat;
    iyear : extended;
    targtype1_txt : string;
    nkill : Q;
    nwound : Q }.
End Kept.

(** A record of the frame that reaches line 45: the derived columns are
    added. *)
Module Retained.
Record t : Type := mk
  { base : Kept.t;
    total_casualties : Q;
    circle_size : Q }.

Definition ix (r : t) : nat := Kept.ix (base r).
Definition iyear (r : t) : extended := Kept.iyear (base r).
Definition targtype1_txt (r : t) : string := Kept.targtype1_txt (base r).
Definition nkill (r : t) : Q := Kept.nkill (base r).
Definition nwound (r : t) : Q := Kept.nwound (base r).
End Retained.

(** A record of a frame whose years are finite, as every frame is that
    got past the two [int(...)] of line 45. *)
Module Incident.
Record t : Type := mk
  { ix : nat;
    iyear : Q;
    targtype1_txt : string;
    nkill : Q;
    nwound : Q }.
End Incident.

(** A record of the prepared frame [load_and_prepare_data] returns. *)
Module Prepared.
Record t : Type := mk
  { base : Incident.t;
    total_casualties : Q;
    circle_size : Q }.

Definition ix (r : t) : nat := Incident.ix (base r).
Definition iyear (r : t) : Q := Incident.iyear (base r).
Definition targtype1_txt (r : t) : string := Incident.targtype1_txt (base r).
Definition nkill (r : t) : Q := Incident.nkill (base r).
Definition nwound (r : t) : Q := Incident.nwound (base r).
End Prepared.

(** ** Exceptions *)

Inductive error : Type :=
| ValueError : string -> error
| OverflowError : string -> error
| KeyError : string -> error.

Inductive result (A : Type) : Type :=
| Ok : A -> result A
| Raise : error -> result A.

Arguments Ok {A} _.
Arguments Raise {A} _.

Definition result_map {A B : Type} (f : A -> B) (r : result A) : result B :=
  match r with
  | Ok a => Ok (f a)
  | Raise e => Raise e
  end.

(** ** Numbers *)

(** The arithmetic of the machine on finite numbers, which is not the
    exact one: [series_add] is the addition of two pandas columns (line
    35), which wraps around in [int64] columns and rounds in [float64]
    columns; the four others are the operations of IEEE doubles, in pandas
    and in JavaScript, which round.  A result that is no finite number is
    not modelled. *)
Record Arithmetic : Type := mkArithmetic
  { series_add : Q -> Q -> Q;
    float_add : Q -> Q -> Q;
    float_sub : Q -> Q -> Q;
    float_mul : Q -> Q -> Q;
    float_div : Q -> Q -> Q }.

(** The addition of two [int64] columns, on whole numbers: the sum modulo
    2^64, between -2^63 and 2^63 - 1. *)
Definition wrap_int64 (z : Z) : Z :=
  ((z + 2 ^ 63) mod 2 ^ 64 - 2 ^ 63)%Z.

Definition int64_add (x y : Q) : Q :=
  inject_Z (wrap_int64 (Qfloor x + Qfloor y)).

(** [x < y] on rationals, as a boolean. *)
Definition Qlt_bool (x y : Q) : bool := negb (Qle_bool y x).

(** [x < y] on floats that are not [NaN]. *)
Definition ext_ltb (x y : extended) : bool :=
  match x, y with
  | Finite a, Finite b => Qlt_bool a b
  | Finite _, Infinite negative => negb negative
  | Infinite negative, Finite _ => negative
  | Infinite a, Infinite b => a && negb b
  end.

(** [Series.max()] and [Series.min()] of a column without missing values,
    along the order [lt]: [None] stands for the [NaN] pandas returns on an
    empty column. *)
Definition column_max {A : Type} (lt : A -> A -> bool) (l : list A)
  : option A :=
  match l with
  | [] => None
  | x :: t => Some (fold_left (fun m y => if lt m y then y else m) t x)
  end.

Definition column_min {A : Type} (lt : A -> A -> bool) (l : list A)
  : option A :=
  match l with
  | [] => None
  | x :: t => Some (fold_left (fun m y => if lt y m then y else m) t x)
  end.

(** On a column of finite numbers. *)
Definition series_max (l : list Q) : option Q :=
  match l with
  | [] => None
  | x :: t => Some (fold_left (fun m y => if Qlt_bool m y then y else m) t x)
  end.

Definition series_min (l : list Q) : option Q :=
  match l with
  | [] => None
  | x :: t => Some (fold_left (fun m y => if Qlt_bool y m then y else m) t x)
  end.

(** Python's [int(x)] on a float: truncation toward zero; it raises
    [ValueError] on [NaN] and [OverflowError] on an infinity. *)
Definition int_of_float (x : option extended) : result Z :=
  match x with
  | Some (Finite q) => Ok (Z.quot (Qnum q) (Zpos (Qden q)))
  | Some (Infinite _) =>
      Raise (OverflowError "cannot convert float infinity to integer")
  | None => Raise (ValueError "cannot convert float NaN to integer")
  end.

(** ** [load_and_prepare_data] *)

Definition required_cols : list string :=
  ["iyear"; "targtype1_txt"; "nkill"; "nwound"]%string.

(** [col in df.columns] *)
Definition has_column (df : DataFrame) (col : string) : bool :=
  existsb (String.eqb col) (columns df).

(** The message of the [ValueError] of line 25. *)
Definition missing_column_message (col : string) : string :=
  ("Required column '" ++ col ++ "' not found in dataset")%string.

(** Lines 23-25: the first required column that is absent, if any. *)
Definition first_missing (df : DataFrame) : option string :=
  find (fun col => negb (has_column df col)) required_cols.

(** [pd.to_numeric(errors='coerce')] on a cell, with the conversion
    [parse] of a text: [None] is [NaN]. *)
Definition to_numeric {N : Type} (parse : string -> option N) (c : cell N)
  : option N :=
  match c with
  | NaN => None
  | Num x => Some x
  | Str s => parse s
  end.

Definition fillna (d : Q) (v : option Q) : Q :=
  match v with
  | Some q => q
  | None => d
  end.

(** The rows of a frame at the given positions, in that order. *)
Definition take {A : Type} (l : list A) (positions : list nat) : list A :=
  flat_map (fun i => match nth_error l i with
                     | Some r => [r]
                     | None => []
                     end) positions.

Section Prepare.

(** The conversion of a text cell by [pd.to_numeric]: [None] when the text
    is not a number (it is then coerced to [NaN]).  [parse_float] reads the
    text of a count cell, [parse_year] the text of a year cell. *)
Variable parse_float : string -> option Q.
Variable parse_year : string -> option extended.

(** The positions [DataFrame.sample(n, random_state=42)] draws from a
    frame of [len] rows. *)
Variable choice : nat -> nat -> list nat.

Variable arith : Arithmetic.

(** Lines 28-30. *)
Definition coerce (r : Raw.t) : Coerced.t :=
  {| Coerced.ix := Raw.ix r;
     Coerced.iyear := to_numeric parse_year (Raw.iyear r);
     Coerced.targtype1_txt := Raw.targtype1_txt r;
     Coerced.nkill := fillna 0 (to_numeric parse_float (Raw.nkill r));
     Coerced.nwound := fillna 0 (to_numeric parse_float (Raw.nwound r)) |}.

(** Line 31, on one record. *)
Definition notna (r : Coerced.t) : option Kept.t :=
  match Coerced.iyear r, Coerced.targtype1_txt r with
  | Some y, Some t =>
      Some {| Kept.ix := Coerced.ix r;
              Kept.iyear := y;
              Kept.targtype1_txt := t;
              Kept.nkill := Coerced.nkill r;
              Kept.nwound := Coerced.nwound r |}
  | _, _ => None
  end.

(** Line 31: [df.dropna(subset=['iyear', 'targtype1_txt'])]. *)
Fixpoint dropna (l : list Coerced.t) : list Kept.t :=
  match l with
  | [] => []
  | r :: t =>
      match notna r with
      | Some i => i :: dropna t
      | None => dropna t
      end
  end.

(** Line 32: [df[df['iyear'] > 1900]]. *)
Definition after_1900 (l : list Kept.t) : list Kept.t :=
  filter (fun r => ext_ltb (Finite 1900) (Kept.iyear r)) l.

(** Lines 28-32. *)
Definition clean (df : DataFrame) : list Kept.t :=
  after_1900 (dropna (map coerce (records df))).

(** Line 35. *)
Definition casualties (r : Kept.t) : Q :=
  series_add arith (Kept.nkill r) (Kept.nwound r).

(** Lines 36-37: the size is [8 + total / max * 22] when the largest
    total is positive, and the constant 10 otherwise. *)
Definition size_of (max_casualties : option Q) (total : Q) : Q :=
  match max_casualties with
  | Some m =>
      if Qlt_bool 0 m
      then float_add arith 8 (float_mul arith (float_div arith total m) 22)
      else 10
  | None => 10
  end.

(** Lines 35-37. *)
Definition derive (l : list Kept.t) : list Retained.t :=
  let max_casualties := series_max (map casualties l) in
  map (fun r =>
         {| Retained.base := r;
            Retained.total_casualties := casualties r;
            Retained.circle_size := size_of max_casualties (casualties r) |})
      l.

(** [df.sample(n, random_state=42)] *)
Definition sample {A : Type} (n : nat) (l : list A) : list A :=
  take l (choice (length l) n).

(** Lines 40-42. *)
Definition sample_if_large {A : Type} (sample_limit : nat) (l : list A)
  : list A :=
  if (sample_limit <? length l)%nat then sample sample_limit l else l.

(** The rows that reach the sampling step. *)
Definition retained (df : DataFrame) : list Retained.t :=
  derive (clean df).

(** Line 45: the two [int(...)] of the year-range message. *)
Definition year_range (l : list Retained.t) : result (Z * Z) :=
  match int_of_float (column_min ext_ltb (map Retained.iyear l)) with
  | Raise e => Raise e
  | Ok lo =>
      match int_of_float (column_max ext_ltb (map Retained.iyear l)) with
      | Raise e => Raise e
      | Ok hi => Ok (lo, hi)
      end
  end.

(** A row whose year is finite, as a row of the prepared frame. *)
Definition finite_row (r : Retained.t) : option Prepared.t :=
  match Retained.iyear r with
  | Finite y =>
      Some {| Prepared.base :=
                {| Incident.ix := Retained.ix r;
                   Incident.iyear := y;
                   Incident.targtype1_txt := Retained.targtype1_txt r;
                   Incident.nkill := Retained.nkill r;
                   Incident.nwound := Retained.nwound r |};
              Prepared.total_casualties := Retained.total_casualties r;
              Prepared.circle_size := Retained.circle_size r |}
  | Infinite _ => None
  end.

(** The rows of a frame, which got past line 45: their years are finite. *)
Definition finite_rows (l : list Retained.t) : list Prepared.t :=
  flat_map (fun r => match finite_row r with
                     | Some p => [p]
                     | None => []
                     end) l.

(** [load_and_prepare_data], from the frame [pd.read_csv] returned. *)
Definition load_and_prepare_data (df : DataFrame) (sample_limit : nat)
  : result (list Prepared.t) :=
  match first_missing df with
  | Some col => Raise (ValueError (missing_column_message col))
  | None =>
      let out := sample_if_large sample_limit (retained df) in
      match year_range out with
      | Raise e => Raise e
      | Ok _ => Ok (finite_rows out)
      end
  end.

End Prepare.

(** ** [create_color_mapping] *)

(** [Series.unique()]: the distinct values, in order of first appearance. *)
Fixpoint unique (l : list string) : list string :=
  match l with
  | [] => []
  | x :: t => x :: filter (fun y => negb (String.eqb x y)) (unique t)
  end.

(** Python's [sorted], as an insertion sort along the order [le]. *)
Fixpoint insert_sorted {A : Type} (le : A -> A -> bool) (x : A) (l : list A)
  : list A :=
  match l with
  | [] => [x]
  | y :: t => if le x y then x :: y :: t else y :: insert_sorted le x t
  end.

Definition sorted {A : Type} (le : A -> A -> bool) (l : list A) : list A :=
  fold_right (insert_sorted le) [] l.

(** [dict.get]: the colour of a label, [None] when the label is no key. *)
Fixpoint dict_get (d : list (string * string)) (k : string) : option string :=
  match d with
  | [] => None
  | (k', v) :: t => if String.eqb k' k then Some v else dict_get t k
  end.

Section ColorMapping.

(** The two Bokeh palettes: 20 and 256 colours. *)
Variables Category20_20 Turbo256 : list string.

(** Lines 55-63.  The keys of the dictionary are pairwise distinct, so the
    association list read from its head is the dictionary. *)
Definition create_color_mapping (df : list Prepared.t)
  : list (string * string) * list string :=
  let unique_targets :=
    sorted String.leb (unique (map Prepared.targtype1_txt df)) in
  let n_targets := length unique_targets in
  let colors :=
    if (n_targets <=? 20)%nat then firstn n_targets Category20_20
    else
      let step := (length Turbo256 / n_targets)%nat in
      map (fun i => nth (i * step)%nat Turbo256 EmptyString)
          (seq 0 n_targets)
  in
  (combine unique_targets colors, unique_targets).

End ColorMapping.

(** ** The page [create_visualization] builds *)

(** A record of the frame once the [color] column is added (line 72); the
    colour is missing when the label is no key of the colour map. *)
Module Shown.
Record t : Type := mk
  { row : Prepared.t;
    color : option string }.
End Shown.

(** [DataFrame.to_dict('list')] and a [ColumnDataSource]'s [data]: one array
    per column, restricted to the seven columns the callback reads. *)
Module Columns.
Record t : Type := mk
  { iyear : list Q;
    targtype1_txt : list string;
    nkill : list Q;
    nwound : list Q;
    total_casualties : list Q;
    circle_size : list Q;
    color : list (option string) }.

Definition empty : t := mk [] [] [] [] [] [] [].
End Columns.

Definition to_dict_list (df : list Shown.t) : Columns.t :=
  {| Columns.iyear := map (fun r => Prepared.iyear (Shown.row r)) df;
     Columns.targtype1_txt :=
       map (fun r => Prepared.targtype1_txt (Shown.row r)) df;
     Columns.nkill := map (fun r => Prepared.nkill (Shown.row r)) df;
     Columns.nwound := map (fun r => Prepared.nwound (Shown.row r)) df;
     Columns.total_casualties :=
       map (fun r => Prepared.total_casualties (Shown.row r)) df;
     Columns.circle_size :=
       map (fun r => Prepared.circle_size (Shown.row r)) df;
     Columns.color := map Shown.color df |}.

(** The range of an axis: a bound is [None] until it is assigned. *)
Record Range : Type := mkRange
  { range_start : option Q;
    range_end : option Q }.

Record Page : Type := mkPage
  { source_data : Columns.t;
    source_changes : nat;
    legend_field : string;
    title_text : string;
    stats_text : string;
    x_range : Range;
    y_range : Range;
    slider_start : Z;
    slider_end : Z;
    slider_value : Q * Q;
    checkbox_labels : list string;
    checkbox_active : list nat;
    original_data : Columns.t }.

(** The double quote and the line feed of the two HTML templates. *)
Definition dquote : string := String (ascii_of_nat 34) EmptyString.
Definition newline : string := String (ascii_of_nat 10) EmptyString.

Definition div_open : string :=
  ("<div style=" ++ dquote
   ++ "padding:10px;background-color:#e8f4f8;border-radius:5px;"
   ++ dquote ++ ">")%string.

(** The legend entries Bokeh draws for [legend_field]: one per distinct
    value of that column of the source, grouped in the browser. *)
Definition legend_labels (p : Page) : list string :=
  if String.eqb (legend_field p) "targtype1_txt"
  then unique (Columns.targtype1_txt (source_data p))
  else [].

Section Visualization.

Variables Category20_20 Turbo256 : list string.

(** Python's formats [{:,}] and [{}] of an integer and [{:,.0f}] of a
    float. *)
Variable format_int_grouped : Z -> string.
Variable format_int : Z -> string.
Variable format_float_grouped : Q -> string.

(** Line 72. *)
Definition with_color (color_map : list (string * string))
           (df : list Prepared.t) : list Shown.t :=
  map (fun r =>
         {| Shown.row := r;
            Shown.color := dict_get color_map (Prepared.targtype1_txt r) |})
      df.

(** [Series.sum()] *)
Definition series_sum (l : list Q) : Q := fold_left Qplus l 0.

(** Lines 147-154. *)
Definition initial_stats (df : list Prepared.t) (year_min year_max : Z)
  : string :=
  (newline ++ "        " ++ div_open ++ newline
   ++ "            <strong>Showing:</strong> "
   ++ format_int_grouped (Z.of_nat (length df)) ++ " incidents | " ++ newline
   ++ "            <strong>Years:</strong> "
   ++ format_int year_min ++ " - " ++ format_int year_max ++ " | " ++ newline
   ++ "            <strong>Total Killed:</strong> "
   ++ format_float_grouped (series_sum (map Prepared.nkill df))
   ++ " | " ++ newline
   ++ "            <strong>Total Wounded:</strong> "
   ++ format_float_grouped (series_sum (map Prepared.nwound df)) ++ newline
   ++ "        </div>" ++ newline ++ "    ")%string.

(** [create_visualization], up to the page handed to [show]. *)
Definition create_visualization (df : list Prepared.t) : result Page :=
  let '(color_map, unique_targets) :=
    create_color_mapping Category20_20 Turbo256 df in
  let shown := with_color color_map df in
  let original_df := shown in
  match int_of_float
          (option_map Finite (series_min (map Prepared.iyear df))) with
  | Raise e => Raise e
  | Ok year_min =>
      match int_of_float
              (option_map Finite (series_max (map Prepared.iyear df))) with
      | Raise e => Raise e
      | Ok year_max =>
          Ok {| source_data := to_dict_list shown;
                source_changes := 0;
                legend_field := "targtype1_txt";
                title_text :=
                  "Terrorism Casualties by Target Type (All Years)";
                stats_text := initial_stats df year_min year_max;
                x_range := mkRange None None;
                y_range := mkRange None None;
                slider_start := year_min;
                slider_end := year_max;
                slider_value := (inject_Z year_min, inject_Z year_max);
                checkbox_labels := unique_targets;
                checkbox_active := seq 0 (length unique_targets);
                original_data := to_dict_list original_df |}
      end
  end.

End Visualization.

(** ** The filter callback (lines 157-208) *)

(** [Array.prototype.includes]; [None] is JavaScript's [undefined], which
    [includes] finds when the array holds it. *)
Definition includes (a : list (option string)) (x : option string) : bool :=
  existsb (fun y => match y, x with
                    | Some s, Some t => String.eqb s t
                    | None, None => true
                    | _, _ => false
                    end) a.

(** [Array.prototype.push] *)
Definition push {A : Type} (a : list A) (x : A) : list A := a ++ [x].

(** What the loop updates: [new_data] and the two running totals. *)
Record LoopState : Type := mkLoopState
  { new_data : Columns.t;
    total_killed : Q;
    total_wounded : Q }.

Definition loop_init : LoopState :=
  {| new_data := Columns.empty; total_killed := 0; total_wounded := 0 |}.

(** In the option monad: [None] is a read past the end of a column, whose
    [undefined] the typed columns of the model cannot hold. *)
Definition bind {A B : Type} (x : option A) (f : A -> option B) : option B :=
  match x with
  | Some a => f a
  | None => None
  end.

Notation "x <- e ;; k" := (bind e (fun x => k))
  (at level 61, e at next level, right associativity).

(** The body of the [for] loop at index [i]. *)
Definition loop_body (orig : Columns.t) (start end_ : Q)
           (selected : list (option string)) (i : nat) (st : LoopState)
  : option LoopState :=
  year <- nth_error (Columns.iyear orig) i ;;
  let targ := nth_error (Columns.targtype1_txt orig) i in
  if Qle_bool start year && Qle_bool year end_ && includes selected targ
  then
    t <- targ ;;
    k <- nth_error (Columns.nkill orig) i ;;
    w <- nth_error (Columns.nwound orig) i ;;
    tc <- nth_error (Columns.total_casualties orig) i ;;
    cs <- nth_error (Columns.circle_size orig) i ;;
    c <- nth_error (Columns.color orig) i ;;
    let d := new_data st in
    Some {| new_data :=
              {| Columns.iyear := push (Columns.iyear d) year;
                 Columns.targtype1_txt := push (Columns.targtype1_txt d) t;
                 Columns.nkill := push (Columns.nkill d) k;
                 Columns.nwound := push (Columns.nwound d) w;
                 Columns.total_casualties :=
                   push (Columns.total_casualties d) tc;
                 Columns.circle_size := push (Columns.circle_size d) cs;
                 Columns.color := push (Columns.color d) c |};
            total_killed := total_killed st + k;
            total_wounded := total_wounded st + w |}
  else Some st.

(** [for (let i = 0; i < orig['iyear'].length; i++) { ... }] *)
Definition filter_loop (orig : Columns.t) (start end_ : Q)
           (selected : list (option string)) : option LoopState :=
  fold_left (fun st i => s <- st ;; loop_body orig start end_ selected i s)
            (seq 0 (length (Columns.iyear orig)))
            (Some loop_init).

(** A loop state after the rows [kept] were pushed, in that order. *)
Definition pushed (st : LoopState) (kept : list Shown.t) : LoopState :=
  let d := new_data st in
  let k := to_dict_list kept in
  {| new_data :=
       {| Columns.iyear := Columns.iyear d ++ Columns.iyear k;
          Columns.targtype1_txt :=
            Columns.targtype1_txt d ++ Columns.targtype1_txt k;
          Columns.nkill := Columns.nkill d ++ Columns.nkill k;
          Columns.nwound := Columns.nwound d ++ Columns.nwound k;
          Columns.total_casualties :=
            Columns.total_casualties d ++ Columns.total_casualties k;
          Columns.circle_size := Columns.circle_size d ++ Columns.circle_size k;
          Columns.color := Columns.color d ++ Columns.color k |};
     total_killed :=
       fold_left Qplus (Columns.nkill k) (total_killed st);
     total_wounded :=
       fold_left Qplus (Columns.nwound k) (total_wounded st) |}.

(** The test of the loop on the row [r]. *)
Definition loop_test (start end_ : Q) (selected : list (option string))
           (r : Shown.t) : bool :=
  Qle_bool start (Prepared.iyear (Shown.row r))
  && Qle_bool (Prepared.iyear (Shown.row r)) end_
  && includes selected (Some (Prepared.targtype1_txt (Shown.row r))).

Section Callback.

(** The subtraction and the addition of JavaScript's numbers. *)
Variable arith : Arithmetic.

(** JavaScript's conversion of a number in a template literal, and
    [Number.prototype.toLocaleString]. *)
Variable number_to_string : Q -> string.
Variable toLocaleString : Q -> string.

Definition filtered_title (start end_ : Q) : string :=
  ("Terrorism Casualties by Target Type (" ++ number_to_string start
   ++ " - " ++ number_to_string end_ ++ ")")%string.

Definition filtered_stats (count : nat) (start end_ killed wounded : Q)
  : string :=
  (newline ++ "            " ++ div_open ++ newline
   ++ "                <strong>Showing:</strong> "
   ++ toLocaleString (inject_Z (Z.of_nat count)) ++ " incidents |" ++ newline
   ++ "                <strong>Years:</strong> "
   ++ number_to_string start ++ " - " ++ number_to_string end_ ++ " |"
   ++ newline
   ++ "                <strong>Total Killed:</strong> "
   ++ toLocaleString killed ++ " |" ++ newline
   ++ "                <strong>Total Wounded:</strong> "
   ++ toLocaleString wounded ++ newline
   ++ "            </div>")%string.

(** The dynamic rescale of one axis, to [Math.min(...vals) - 1] and
    [Math.max(...vals) + 1], in the arithmetic of doubles.  The callback
    rescales only when a point is left, so the case of no value is not
    reached; the limit a JavaScript engine puts on the number of spread
    arguments is not modelled. *)
Definition rescale (vals : list Q) (r : Range) : Range :=
  match series_min vals, series_max vals with
  | Some lo, Some hi =>
      {| range_start := Some (float_sub arith lo 1);
         range_end := Some (float_add arith hi 1) |}
  | _, _ => r
  end.

(** The callback of [slider.value] and of [checkbox.active]. *)
Definition callback (p : Page) : option Page :=
  let orig := original_data p in
  let '(start, end_) := slider_value p in
  let selected :=
    map (fun i => nth_error (checkbox_labels p) i) (checkbox_active p) in
  st <- filter_loop orig start end_ selected ;;
  let count := length (Columns.iyear (new_data st)) in
  let x_vals := Columns.nkill (new_data st) in
  let y_vals := Columns.nwound (new_data st) in
  Some {| source_data := new_data st;
          source_changes := S (source_changes p);
          legend_field := legend_field p;
          title_text := filtered_title start end_;
          stats_text :=
            filtered_stats count start end_
                           (total_killed st) (total_wounded st);
          x_range :=
            if (0 <? length x_vals)%nat then rescale x_vals (x_range p)
            else x_range p;
          y_range :=
            if (0 <? length x_vals)%nat then rescale y_vals (y_range p)
            else y_range p;
          slider_start := slider_start p;
          slider_end := slider_end p;
          slider_value := slider_value p;
          checkbox_labels := checkbox_labels p;
          checkbox_active := checkbox_active p;
          original_data := original_data p |}.

End Callback.

(** ** [attack_types_plot.py]: the pivot of incident counts *)

(** The order [groupby] sorts year keys by: numbers by value, texts by code
    point; a number comes before a text. *)
Definition ext_eqb (x y : extended) : bool :=
  match x, y with
  | Finite a, Finite b => Qeq_bool a b
  | Infinite a, Infinite b => Bool.eqb a b
  | _, _ => false
  end.

Definition cell_leb (a b : cell extended) : bool :=
  match a, b with
  | NaN, _ => true
  | Num _, NaN => false
  | Num x, Num y => negb (ext_ltb y x)
  | Num _, Str _ => true
  | Str _, NaN => false
  | Str _, Num _ => false
  | Str s, Str t => String.leb s t
  end.

Definition cell_eqb (a b : cell extended) : bool :=
  match a, b with
  | NaN, NaN => true
  | Num x, Num y => ext_eqb x y
  | Str s, Str t => String.eqb s t
  | _, _ => false
  end.

Definition notna_cell (c : cell extended) : bool :=
  match c with
  | NaN => false
  | _ => true
  end.

Fixpoint unique_by {A : Type} (eqb : A -> A -> bool) (l : list A) : list A :=
  match l with
  | [] => []
  | x :: t => x :: filter (fun y => negb (eqb x y)) (unique_by eqb t)
  end.

(** The unstacked table: its index (years), its columns (attack types) and,
    per year, the count of every attack type (0 where a pair is absent). *)
Record Pivot : Type := mkPivot
  { pivot_index : list (cell extended);
    pivot_columns : list string;
    pivot_values : list (list nat) }.

(** The records [groupby] keeps: both keys present. *)
Definition grouped (df : DataFrame) : list (cell extended * string) :=
  flat_map (fun r => match Raw.attacktype1_txt r with
                     | Some a => if notna_cell (Raw.iyear r)
                                 then [(Raw.iyear r, a)] else []
                     | None => []
                     end) (records df).

(** [.size()] of one group. *)
Definition group_size (keys : list (cell extended * string))
           (y : cell extended) (a : string)
  : nat :=
  length (filter (fun k => cell_eqb (fst k) y && String.eqb (snd k) a) keys).

(** Lines 8-12; [groupby] raises [KeyError] on a key that is no column. *)
Definition attack_pivot (df : DataFrame) : result Pivot :=
  if negb (has_column df "iyear") then Raise (KeyError "iyear")
  else if negb (has_column df "attacktype1_txt")
  then Raise (KeyError "attacktype1_txt")
  else
    let keys := grouped df in
    let years := sorted cell_leb (unique_by cell_eqb (map fst keys)) in
    let types := sorted String.leb (unique (map snd keys)) in
    Ok {| pivot_index := years;
          pivot_columns := types;
          pivot_values :=
            map (fun y => map (fun a => group_size keys y a) types) years |}.

(** ** Specification-side definitions *)

(** The filter as the specification words it: a pure function of the full
    dataset, the year range and the selected categories. *)
Definition in_selection (start end_ : Q) (selected : list string)
           (r : Shown.t) : bool :=
  Qle_bool start (Prepared.iyear (Shown.row r))
  && Qle_bool (Prepared.iyear (Shown.row r)) end_
  && existsb (String.eqb (Prepared.targtype1_txt (Shown.row r))) selected.

Definition filter_spec (start end_ : Q) (selected : list string)
           (full : list Shown.t) : list Shown.t :=
  filter (in_selection start end_ selected) full.

(** The sum of a column, added up from 0 in row order. *)
Definition sum_of (f : Shown.t -> Q) (l : list Shown.t) : Q :=
  fold_left Qplus (map f l) 0.


(** The categories a page has checked: the labels at the active positions
    (an active position past the labels selects nothing). *)
Definition selected_labels (p : Page) : list string :=
  flat_map (fun i => match nth_error (checkbox_labels p) i with
                     | Some s => [s]
                     | None => []
                     end) (checkbox_active p).

(** A prepared record [p] is what data preparation makes of the CSV record
    [r]. *)
Definition prepared_from (parse_float : string -> option Q)
           (parse_year : string -> option extended)
           (r : Raw.t) (p : Prepared.t) : Prop :=
  Prepared.ix p = Raw.ix r
  /\ to_numeric parse_year (Raw.iyear r) = Some (Finite (Prepared.iyear p))
  /\ Raw.targtype1_txt r = Some (Prepared.targtype1_txt p)
  /\ Prepared.nkill p = fillna 0 (to_numeric parse_float (Raw.nkill r))
  /\ Prepared.nwound p = fillna 0 (to_numeric parse_float (Raw.nwound r)).

(** A retained record [q] is what lines 28-32 make of the CSV record
    [r]. *)
Definition retained_from (parse_float : string -> option Q)
           (parse_year : string -> option extended)
           (r : Raw.t) (q : Retained.t) : Prop :=
  Retained.ix q = Raw.ix r
  /\ to_numeric parse_year (Raw.iyear r) = Some (Retained.iyear q)
  /\ Raw.targtype1_txt r = Some (Retained.targtype1_txt q)
  /\ Retained.nkill q = fillna 0 (to_numeric parse_float (Raw.nkill r))
  /\ Retained.nwound q = fillna 0 (to_numeric parse_float (Raw.nwound r)).

(** The year of a retained record is finite. *)
Definition has_finite_year (q : Retained.t) : bool :=
  match Retained.iyear q with
  | Finite _ => true
  | Infinite _ => false
  end.

(** The index label and the coerced year of a CSV record, and those of a
    retained record. *)
Definition raw_key (parse_year : string -> option extended) (r : Raw.t)
  : nat * option extended :=
  (Raw.ix r, to_numeric parse_year (Raw.iyear r)).

Definition retained_key (q : Retained.t) : nat * option extended :=
  (Retained.ix q, Some (Retained.iyear q)).

Definition finite_key (k : nat * option extended) : bool :=
  match snd k with
  | Some (Finite _) => true
  | _ => false
  end.

Definition is_some {A : Type} (x : option A) : bool :=
  match x with
  | Some _ => true
  | None => false
  end.

(** The year is numeric and the target type is present. *)
Definition year_and_target_present (parse_year : string -> option extended)
           (r : Raw.t) : bool :=
  is_some (to_numeric parse_year (Raw.iyear r))
  && is_some (Raw.targtype1_txt r).

(** The year is numeric and later than 1900. *)
Definition year_after_1900 (parse_year : string -> option extended)
           (r : Raw.t) : bool :=
  match to_numeric parse_year (Raw.iyear r) with
  | Some y => ext_ltb (Finite 1900) y
  | None => false
  end.

(** The tests of lines 31 and 32 together. *)
Definition passes_filters (parse_year : string -> option extended)
           (r : Raw.t) : bool :=
  year_and_target_present parse_year r && year_after_1900 parse_year r.

(** The addition of line 35 is exact at [x] and [y]. *)
Definition exact_sum (arith : Arithmetic) (x y : Q) : Prop :=
  series_add arith x y == x + y.

(** Two CSV records that differ at most in their two casualty cells. *)
Definition same_but_casualties (r r' : Raw.t) : Prop :=
  Raw.ix r = Raw.ix r'
  /\ Raw.iyear r = Raw.iyear r'
  /\ Raw.attacktype1_txt r = Raw.attacktype1_txt r'
  /\ Raw.targtype1_txt r = Raw.targtype1_txt r'.

(** A draw of [n] positions out of [len], without replacement. *)
Definition valid_choice (len n : nat) (positions : list nat) : Prop :=
  length positions = n
  /\ NoDup positions
  /\ Forall (fun i => (i < len)%nat) positions.

(** The kill and wound cells of a record hold no negative number. *)
Definition counts_nonnegative (parse_float : string -> option Q) (r : Raw.t)
  : Prop :=
  (forall q, to_numeric parse_float (Raw.nkill r) = Some q -> 0 <= q)
  /\ (forall q, to_numeric parse_float (Raw.nwound r) = Some q -> 0 <= q).

(** ** Sample data *)

Module Sample.

(** A text-to-number conversion for the examples: unsigned decimal
    integers, every other text is no number. *)
Definition digit (c : ascii) : option Z :=
  let n := nat_of_ascii c in
  if ((48 <=? n) && (n <=? 57))%nat then Some (Z.of_nat (n - 48)) else None.

Fixpoint digits (acc : Z) (s : string) : option Z :=
  match s with
  | EmptyString => Some acc
  | String c t =>
      match digit c with
      | Some d => digits (10 * acc + d)%Z t
      | None => None
      end
  end.

Definition parse_float (s : string) : option Q :=
  match s with
  | EmptyString => None
  | _ => option_map inject_Z (digits 0%Z s)
  end.

(** The conversion of the text of a year cell for the examples: the two
    infinities and the numbers [parse_float] reads. *)
Definition parse_year (s : string) : option extended :=
  if String.eqb s "inf" then Some plus_infinity
  else if String.eqb s "-inf" then Some minus_infinity
  else option_map Finite (parse_float s).

(** Two arithmetics for the examples.  The exact one is the machine's on
    the small whole numbers of the sample files; the other one adds the
    columns of line 35 as [int64] columns. *)
Definition exact : Arithmetic :=
  {| series_add := Qplus;
     float_add := Qplus;
     float_sub := Qminus;
     float_mul := Qmult;
     float_div := Qdiv |}.

Definition with_int64 : Arithmetic :=
  {| series_add := int64_add;
     float_add := Qplus;
     float_sub := Qminus;
     float_mul := Qmult;
     float_div := Qdiv |}.

(** A draw for the examples: the last [n] positions, latest first. *)
Definition choice (len n : nat) : list nat := rev (seq (len - n) n).

Definition header : list string :=
  ["iyear"; "attacktype1_txt"; "targtype1_txt"; "nkill"; "nwound"]%string.

Definition incidents : DataFrame :=
  {| columns := header;
     records :=
       [ Raw.mk 0 (Num (Finite 1998)) (Some "Bombing") (Some "Police")
                (Num 3) (Num 10);
         Raw.mk 1 (Str "2001") (Some "Assassination") (Some "Business")
                (Str "unknown") (Num 2);
         Raw.mk 2 NaN (Some "Bombing") (Some "Police") (Num 1) (Num 1);
         Raw.mk 3 (Num (Finite 2004)) (Some "Bombing") None (Num 4) (Num 0);
         Raw.mk 4 (Num (Finite 1899)) (Some "Hijacking") (Some "Military")
                (Num 2) (Num 2);
         Raw.mk 5 (Num (Finite 2010)) (Some "Armed Assault") (Some "Business")
                NaN (Str "n/a");
         Raw.mk 6 (Str "19x7") (Some "Bombing") (Some "Military")
                (Num 5) (Num 5);
         Raw.mk 7 (Num (Finite 2012)) (Some "Bombing") (Some "Military")
                (Num 7) (Str "12") ]%string |}.

(** The same file with other casualty cells. *)
Definition incidents' : DataFrame :=
  {| columns := header;
     records :=
       map (fun r => Raw.mk (Raw.ix r) (Raw.iyear r) (Raw.attacktype1_txt r)
                            (Raw.targtype1_txt r) (Str "many") NaN)
           (records incidents) |}.

(** A file whose first record reports a negative kill count. *)
Definition negative_count : DataFrame :=
  {| columns := header;
     records :=
       [ Raw.mk 0 (Num (Finite 2000)) (Some "Bombing") (Some "Police")
                (Num (-1)) (Num 2) ]%string |}.

(** A file with one valid record. *)
Definition one_incident : DataFrame :=
  {| columns := header;
     records :=
       [ Raw.mk 0 (Num (Finite 2000)) (Some "Bombing") (Some "Business")
                (Num 1) (Num 2) ]%string |}.

(** A file whose record holds the largest [int64] as its kill count. *)
Definition huge_count : DataFrame :=
  {| columns := header;
     records :=
       [ Raw.mk 0 (Num (Finite 2000)) (Some "Bombing") (Some "Police")
                (Num (inject_Z 9223372036854775807)) (Num 1) ]%string |}.

(** A file whose second record holds an infinite year. *)
Definition infinite_year : DataFrame :=
  {| columns := header;
     records :=
       [ Raw.mk 0 (Num (Finite 2000)) (Some "Bombing") (Some "Police")
                (Num 1) (Num 2);
         Raw.mk 1 (Str "inf") (Some "Bombing") (Some "Police")
                (Num 1) (Num 1) ]%string |}.

(** A file without the wound column. *)
Definition no_wound_column : DataFrame :=
  {| columns := ["iyear"; "targtype1_txt"; "nkill"]%string;
     records := records one_incident |}.

(** Bokeh's [Category20_20], and a stand-in of 256 entries for
    [Turbo256]. *)
Definition palette20 : list string :=
  ["#1f77b4"; "#aec7e8"; "#ff7f0e"; "#ffbb78"; "#2ca02c"; "#98df8a";
   "#d62728"; "#ff9896"; "#9467bd"; "#c5b0d5"; "#8c564b"; "#c49c94";
   "#e377c2"; "#f7b6d2"; "#7f7f7f"; "#c7c7c7"; "#bcbd22"; "#dbdb8d";
   "#17becf"; "#9edae5"]%string.

Definition palette256 : list string := repeat "#30123b"%string 256.

(** Number formats for the examples: an integer in decimal, a rational
    as numerator, slash, denominator. *)
Definition show_Z (z : Z) : string := NilZero.string_of_int (Z.to_int z).

Definition show_Q (q : Q) : string :=
  (show_Z (Qnum q) ++ "/" ++ show_Z (Zpos (Qden q)))%string.

(** The first row of the prepared dataset of [incidents]. *)
Definition first_row : Prepared.t :=
  {| Prepared.base :=
       {| Incident.ix := 0;
          Incident.iyear := 1998;
          Incident.targtype1_txt := "Police";
          Incident.nkill := 3;
          Incident.nwound := 10 |};
     Prepared.total_casualties := 13;
     Prepared.circle_size := 438 # 19 |}.

(** The prepared dataset of [incidents], with a limit it stays under. *)
Definition prepared : list Prepared.t :=
  Eval vm_compute in
    match load_and_prepare_data parse_float parse_year choice exact
                                incidents 10 with
    | Ok out => out
    | Raise _ => []
    end.

(** The prepared dataset of [huge_count], its columns added as [int64]
    columns. *)
Definition wrapped : list Prepared.t :=
  Eval vm_compute in
    match load_and_prepare_data parse_float parse_year choice with_int64
                                huge_count 5 with
    | Ok out => out
    | Raise _ => []
    end.

Definition blank : Page :=
  {| source_data := Columns.empty;
     source_changes := 0;
     legend_field := EmptyString;
     title_text := EmptyString;
     stats_text := EmptyString;
     x_range := mkRange None None;
     y_range := mkRange None None;
     slider_start := 0;
     slider_end := 0;
     slider_value := (0, 0);
     checkbox_labels := [];
     checkbox_active := [];
     original_data := Columns.empty |}.

(** The page of the prepared dataset. *)
Definition page : Page :=
  match create_visualization palette20 palette256 show_Z show_Z show_Q
                             prepared with
  | Ok p => p
  | Raise _ => blank
  end.

(** The rows behind the page's [original_data]. *)
Definition shown : list Shown.t :=
  with_color (fst (create_color_mapping palette20 palette256 prepared))
             prepared.

(** The page after the user moved the slider and changed the check
    boxes. *)
Definition with_controls (p : Page) (value : Q * Q) (active : list nat)
  : Page :=
  {| source_data := source_data p;
     source_changes := source_changes p;
     legend_field := legend_field p;
     title_text := title_text p;
     stats_text := stats_text p;
     x_range := x_range p;
     y_range := y_range p;
     slider_start := slider_start p;
     slider_end := slider_end p;
     slider_value := value;
     checkbox_labels := checkbox_labels p;
     checkbox_active := active;
     original_data := original_data p |}.

(** Years 2000 to 2011, "Business" and "Police" checked. *)
Definition page_filtered : Page := with_controls page (2000, 2011) [0; 2]%nat.

(** Every year, no category checked. *)
Definition page_unchecked : Page := with_controls page (1998, 2012) [].

End Sample.

(** ** The reset button (lines 139-141) *)

(** [slider.value = [slider.start, slider.end]] and [checkbox.active =
    Array.from(Array(checkbox.labels.length).keys())]. *)
Definition reset_click (p : Page) : Page :=
  {| source_data := source_data p;
     source_changes := source_changes p;
     legend_field := legend_field p;
     title_text := title_text p;
     stats_text := stats_text p;
     x_range := x_range p;
     y_range := y_range p;
     slider_start := slider_start p;
     slider_end := slider_end p;
     slider_value := (inject_Z (slider_start p), inject_Z (slider_end p));
     checkbox_labels := checkbox_labels p;
     checkbox_active := seq 0 (length (checkbox_labels p));
     original_data := original_data p |}.

(** ** [attack_types_plot.py]: the figure (lines 15-100) *)

(** One [go.Scatter] trace.  [groupnorm] is not set by the script: the
    trace holds no value for it ([None]). *)
Record Trace : Type := mkTrace
  { trace_x : list (cell extended);
    trace_y : list nat;
    trace_mode : string;
    trace_stackgroup : string;
    trace_groupnorm : option string;
    trace_name : string;
    trace_hovertemplate : string }.

(** One button of the update menu: its label, the two restyle lists (one
    entry per trace) and the title it gives the y axis. *)
Record Button : Type := mkButton
  { button_label : string;
    button_method : string;
    button_stackgroup : list string;
    button_groupnorm : list string;
    button_yaxis_title : string }.

Record Figure : Type := mkFigure
  { fig_traces : list Trace;
    fig_title : string;
    fig_xaxis_title : string;
    fig_yaxis_title : string;
    fig_legend_title : string;
    fig_buttons : list Button }.

(** The position of a label among the columns. *)
Fixpoint column_position (a : string) (cols : list string) : option nat :=
  match cols with
  | [] => None
  | c :: t => if String.eqb c a then Some 0%nat
              else option_map S (column_position a t)
  end.

(** [attack_pivot[attack_type]]: the column of a label, one count per year
    of the index. *)
Definition pivot_get (pv : Pivot) (a : string) : list nat :=
  match column_position a (pivot_columns pv) with
  | Some k => map (fun row => nth k row 0%nat) (pivot_values pv)
  | None => []
  end.

(** Lines 21-35. *)
Definition scatter (pv : Pivot) (attack_type : string) : Trace :=
  {| trace_x := pivot_index pv;
     trace_y := pivot_get pv attack_type;
     trace_mode := "lines";
     trace_stackgroup := "one";
     trace_groupnorm := None;
     trace_name := attack_type;
     trace_hovertemplate :=
       ("<b>Year:</b> %{x}<br>"
        ++ "<b>Attack Type:</b> " ++ attack_type ++ "<br>"
        ++ "<b>Incidents:</b> %{y}<extra></extra>")%string |}.

(** Lines 51-98. *)
Definition update_buttons (n_traces : nat) : list Button :=
  [ {| button_label := "Stacked";
       button_method := "update";
       button_stackgroup := repeat "one"%string n_traces;
       button_groupnorm := repeat EmptyString n_traces;
       button_yaxis_title := "Number of Incidents" |};
    {| button_label := "Grouped";
       button_method := "update";
       button_stackgroup := repeat EmptyString n_traces;
       button_groupnorm := repeat EmptyString n_traces;
       button_yaxis_title := "Number of Incidents" |};
    {| button_label := "100% Stacked";
       button_method := "update";
       button_stackgroup := repeat "one"%string n_traces;
       button_groupnorm := repeat "percent"%string n_traces;
       button_yaxis_title := "Percentage of Incidents" |} ]%string.

(** Lines 15-100: the figure handed to [pyo.plot]. *)
Definition make_figure (pv : Pivot) : Figure :=
  let n_traces := length (pivot_columns pv) in
  {| fig_traces := map (scatter pv) (pivot_columns pv);
     fig_title := "Attack Types Over Time - Region 05";
     fig_xaxis_title := "Year";
     fig_yaxis_title := "Number of Incidents";
     fig_legend_title := "Attack Types";
     fig_buttons := update_buttons n_traces |}.

(** The script, from the frame [pd.read_csv] returned. *)
Definition attack_types_plot (df : DataFrame) : result Figure :=
  result_map make_figure (attack_pivot df).

(** The number of records of the year [y] that [groupby] keeps. *)
Definition year_count (df : DataFrame) (y : cell extended) : nat :=
  length (filter (fun k => cell_eqb (fst k) y) (grouped df)).

(** The number of records of the attack type [a] that [groupby] keeps. *)
Definition type_count (df : DataFrame) (a : string) : nat :=
  length (filter (fun k => String.eqb (snd k) a) (grouped df)).

(** The height of the stack at position [j] of the index: the sum of the
    traces' values there. *)
Definition stack_height (f : Figure) (j : nat) : nat :=
  list_sum (map (fun t => nth j (trace_y t) 0%nat) (fig_traces f)).

(** ** More specification-side definitions *)

(** The year is a whole number. *)
Definition whole_year (p : Prepared.t) : Prop :=
  exists z : Z, Prepared.iyear p == inject_Z z.

(** The colour line 58 or line 62 computes for the label at position [k]
    of [n_targets] sorted labels. *)
Definition palette_color (Category20_20 Turbo256 : list string)
           (n_targets k : nat) : string :=
  if (n_targets <=? 20)%nat then nth k Category20_20 EmptyString
  else nth (k * (length Turbo256 / n_targets))%nat Turbo256 EmptyString.

(** The fields of a page that neither callback writes: [q] is the
    document of [p] in some state of its widgets and of its display. *)
Definition same_document (p q : Page) : Prop :=
  original_data q = original_data p
  /\ legend_field q = legend_field p
  /\ slider_start q = slider_start p
  /\ slider_end q = slider_end p
  /\ checkbox_labels q = checkbox_labels p.

(** The fields of a page the callback writes, but for the count of
    [change] events. *)
Definition displayed (p : Page)
  : Columns.t * string * string * Range * Range :=
  (source_data p, title_text p, stats_text p, x_range p, y_range p).

(** A value within an axis range whose two bounds are set. *)
Definition within (r : Range) (x : Q) : Prop :=
  exists lo hi,
    range_start r = Some lo /\ range_end r = Some hi /\ lo <= x <= hi.

(** ** More sample data *)

Module Cases.

(** A frame of 257 rows with pairwise distinct target types. *)
Definition many_targets : list Prepared.t :=
  map (fun i =>
         {| Prepared.base :=
              {| Incident.ix := i;
                 Incident.iyear := 2000;
                 Incident.targtype1_txt := Sample.show_Z (Z.of_nat i);
                 Incident.nkill := 1;
                 Incident.nwound := 0 |};
            Prepared.total_casualties := 1;
            Prepared.circle_size := 30 |})
      (seq 0 257).

(** A palette of 256 pairwise distinct colours. *)
Definition palette256 : list string :=
  map (fun i => Sample.show_Z (Z.of_nat i)) (seq 0 256).

(** The pivot and the figure of the sample file. *)
Definition pivot : Pivot :=
  match attack_pivot Sample.incidents with
  | Ok pv => pv
  | Raise _ => mkPivot [] [] []
  end.

Definition figure : Figure := make_figure pivot.

(** A file without the attack type column. *)
Definition no_attack_column : DataFrame :=
  {| columns := ["iyear"; "targtype1_txt"; "nkill"; "nwound"]%string;
     records := records Sample.incidents |}.

(** A file whose records all lack a usable year. *)
Definition no_usable_year : DataFrame :=
  {| columns := Sample.header;
     records :=
       [ Raw.mk 0 NaN (Some "Bombing") (Some "Police") (Num 1) (Num 1);
         Raw.mk 1 (Num (Finite 1850)) (Some "Bombing") (Some "Police")
                (Num 1) (Num 1) ]%string |}.

(** A file whose records report no casualty. *)
Definition no_casualties : DataFrame :=
  {| columns := Sample.header;
     records :=
       [ Raw.mk 0 (Num (Finite 2000)) (Some "Bombing") (Some "Police")
                (Num 0) NaN;
         Raw.mk 1 (Num (Finite 2003)) (Some "Bombing") (Some "Business")
                (Str "none") (Num 0) ]%string |}.

(** Its prepared dataset. *)
Definition unharmed : list Prepared.t :=
  Eval vm_compute in
    match load_and_prepare_data Sample.parse_float Sample.parse_year
                                Sample.choice Sample.exact
                                no_casualties 10 with
    | Ok out => out
    | Raise _ => []
    end.

End Cases.

(** * Properties *)

Unset Implicit Arguments.

(** ** Booleans and numbers *)

Lemma Qlt_bool_iff (x y : Q) : Qlt_bool x y = true <-> x < y.
Proof.
  unfold Qlt_bool. rewrite negb_true_iff. split.
  - intros H. apply Qnot_le_lt. intros Hle.
    apply Qle_bool_iff in Hle. congruence.
  - intros H. destruct (Qle_bool y x) eqn:E; [ | reflexivity ].
    apply Qle_bool_iff in E. exfalso. exact (Qlt_not_le _ _ H E).
Qed.

Lemma series_min_None (l : list Q) : series_min l = None <-> l = [].
Proof. destruct l; simpl; split; intros H; congruence. Qed.

Lemma series_max_None (l : list Q) : series_max l = None <-> l = [].
Proof. destruct l; simpl; split; intros H; congruence. Qed.

(** ** Rows taken by position *)

Lemma In_take {A : Type} (l : list A) (positions : list nat) (x : A) :
  In x (take l positions) -> In x l.
Proof.
  unfold take. rewrite in_flat_map. intros (i & _ & Hi).
  destruct (nth_error l i) as [r | ] eqn:E; simpl in Hi; [ | contradiction ].
  destruct Hi as [-> | []]. exact (nth_error_In _ _ E).
Qed.

Lemma length_take {A : Type} (l : list A) (positions : list nat) :
  Forall (fun i => (i < length l)%nat) positions ->
  length (take l positions) = length positions.
Proof.
  induction 1 as [ | i positions Hi _ IH ]; simpl; [ reflexivity | ].
  destruct (nth_error l i) eqn:E.
  - simpl. now rewrite IH.
  - apply nth_error_None in E. lia.
Qed.

Lemma map_take {A B : Type} (f : A -> B) (l : list A) (positions : list nat) :
  map f (take l positions) = take (map f l) positions.
Proof.
  induction positions as [ | i positions IH ]; simpl; [ reflexivity | ].
  rewrite map_app, IH, nth_error_map.
  now destruct (nth_error l i).
Qed.

(** ** Years, finite and infinite *)

Lemma ext_ltb_plus_infinity (y : extended) : ext_ltb plus_infinity y = false.
Proof. destruct y as [q | [ | ]]; reflexivity. Qed.

Lemma ext_ltb_minus_infinity (y : extended) :
  ext_ltb y minus_infinity = false.
Proof. destruct y as [q | [ | ]]; reflexivity. Qed.

Lemma ext_ltb_finite (x y : Q) :
  ext_ltb (Finite x) (Finite y) = true <-> x < y.
Proof. simpl. apply Qlt_bool_iff. Qed.

(** The value a running minimum or maximum ends with is one of the
    column. *)
Lemma fold_pick_In {A : Type} (pick : A -> A -> bool) (t : list A) (x : A) :
  In (fold_left (fun m y => if pick m y then y else m) t x) (x :: t).
Proof.
  revert x. induction t as [ | a t IH ]; intros x; simpl.
  - now left.
  - destruct (IH (if pick x a then a else x)) as [H | H].
    + rewrite <- H. destruct (pick x a); auto.
    + auto.
Qed.

(** Plus infinity in a column is its maximum, minus infinity its
    minimum. *)
Lemma fold_max_plus_infinity (t : list extended) (x : extended) :
  In plus_infinity (x :: t) ->
  fold_left (fun m y => if ext_ltb m y then y else m) t x = plus_infinity.
Proof.
  revert x. induction t as [ | a t IH ]; intros x Hin; simpl.
  - destruct Hin as [ -> | [] ]. reflexivity.
  - apply IH. destruct Hin as [ -> | [ -> | Hin ] ].
    + left. now rewrite ext_ltb_plus_infinity.
    + left. destruct x as [q | [ | ]]; reflexivity.
    + right. exact Hin.
Qed.

Lemma fold_min_minus_infinity (t : list extended) (x : extended) :
  In minus_infinity (x :: t) ->
  fold_left (fun m y => if ext_ltb y m then y else m) t x = minus_infinity.
Proof.
  revert x. induction t as [ | a t IH ]; intros x Hin; simpl.
  - destruct Hin as [ -> | [] ]. reflexivity.
  - apply IH. destruct Hin as [ -> | [ -> | Hin ] ].
    + left. now rewrite ext_ltb_minus_infinity.
    + left. destruct x as [q | [ | ]]; reflexivity.
    + right. exact Hin.
Qed.

Lemma forallb_false {A : Type} (f : A -> bool) (l : list A) :
  forallb f l = false -> exists x, In x l /\ f x = false.
Proof.
  induction l as [ | a l IH ]; simpl; [ discriminate | ].
  destruct (f a) eqn:E; simpl.
  - intros H. destruct (IH H) as (x & Hx & Hf). eauto.
  - intros _. eauto.
Qed.

(** ** Rows with a finite year *)

Lemma finite_row_Some (q : Retained.t) (p : Prepared.t) :
  finite_row q = Some p ->
  Prepared.ix p = Retained.ix q
  /\ Retained.iyear q = Finite (Prepared.iyear p)
  /\ Prepared.targtype1_txt p = Retained.targtype1_txt q
  /\ Prepared.nkill p = Retained.nkill q
  /\ Prepared.nwound p = Retained.nwound q
  /\ Prepared.total_casualties p = Retained.total_casualties q
  /\ Prepared.circle_size p = Retained.circle_size q.
Proof.
  unfold finite_row. destruct (Retained.iyear q) as [y | b];
    [ | discriminate ].
  intros H. injection H as <-. repeat split.
Qed.

Lemma finite_row_finite (q : Retained.t) :
  has_finite_year q = true -> exists p, finite_row q = Some p.
Proof.
  unfold has_finite_year, finite_row.
  destruct (Retained.iyear q); [ eauto | discriminate ].
Qed.

Lemma In_finite_rows (l : list Retained.t) (p : Prepared.t) :
  In p (finite_rows l) <-> exists q, In q l /\ finite_row q = Some p.
Proof.
  unfold finite_rows. rewrite in_flat_map. split.
  - intros (q & Hq & Hp). exists q. split; [ exact Hq | ].
    destruct (finite_row q) as [p' | ]; simpl in Hp; [ | contradiction ].
    destruct Hp as [-> | []]. reflexivity.
  - intros (q & Hq & Hp). exists q. split; [ exact Hq | ].
    rewrite Hp. now left.
Qed.

Lemma length_finite_rows (l : list Retained.t) :
  forallb has_finite_year l = true -> length (finite_rows l) = length l.
Proof.
  induction l as [ | q l IH ]; simpl; [ reflexivity | ].
  intros H. apply andb_true_iff in H. destruct H as (Hq & Hl).
  destruct (finite_row_finite q Hq) as (p & ->). simpl. now rewrite IH.
Qed.

Lemma ix_finite_rows (l : list Retained.t) :
  forallb has_finite_year l = true ->
  map Prepared.ix (finite_rows l) = map Retained.ix l.
Proof.
  induction l as [ | q l IH ]; simpl; [ reflexivity | ].
  intros H. apply andb_true_iff in H. destruct H as (Hq & Hl).
  destruct (finite_row_finite q Hq) as (p & Hp). rewrite Hp. simpl.
  rewrite IH by exact Hl. f_equal. now apply finite_row_Some in Hp.
Qed.

Lemma finite_rows_nil (l : list Retained.t) :
  forallb has_finite_year l = true -> finite_rows l = [] -> l = [].
Proof.
  intros H E. apply length_zero_iff_nil.
  rewrite <- (length_finite_rows l H), E. reflexivity.
Qed.

Lemma finite_key_retained (l : list Retained.t) :
  forallb finite_key (map retained_key l) = forallb has_finite_year l.
Proof.
  induction l as [ | q l IH ]; simpl; [ reflexivity | ].
  rewrite IH. unfold finite_key, retained_key, has_finite_year. simpl.
  now destruct (Retained.iyear q).
Qed.

(** ** Line 45 *)

Lemma year_range_nil :
  year_range [] = Raise (ValueError "cannot convert float NaN to integer").
Proof. reflexivity. Qed.

(** On a frame with rows whose years are all finite the two conversions
    succeed. *)
Lemma year_range_finite (l : list Retained.t) :
  l <> [] ->
  forallb has_finite_year l = true ->
  exists v, year_range l = Ok v.
Proof.
  intros Hne Hall.
  assert (Hfin : forall y, In y (map Retained.iyear l) ->
                           exists q : Q, y = Finite q).
  { intros y Hy. apply in_map_iff in Hy. destruct Hy as (r & <- & Hr).
    rewrite forallb_forall in Hall. specialize (Hall r Hr).
    unfold has_finite_year in Hall.
    destruct (Retained.iyear r) as [q | b]; [ eauto | discriminate ]. }
  unfold year_range.
  destruct (map Retained.iyear l) as [ | x t ] eqn:E.
  - apply map_eq_nil in E. contradiction.
  - unfold column_min, column_max.
    destruct (Hfin _ (fold_pick_In (fun m y => ext_ltb y m) t x))
      as (lo & ->).
    destruct (Hfin _ (fold_pick_In ext_ltb t x)) as (hi & ->).
    simpl. eauto.
Qed.

(** With an infinite year in the frame, one of the two conversions
    raises. *)
Lemma year_range_infinite (l : list Retained.t) :
  forallb has_finite_year l = false ->
  year_range l
  = Raise (OverflowError "cannot convert float infinity to integer").
Proof.
  intros H. apply forallb_false in H. destruct H as (r & Hr & Hinf).
  unfold has_finite_year in Hinf.
  assert (Hy : In (Retained.iyear r) (map Retained.iyear l))
    by now apply in_map.
  destruct (Retained.iyear r) as [q | negative]; [ discriminate | ].
  unfold year_range.
  destruct (map Retained.iyear l) as [ | x t ]; [ contradiction | ].
  unfold column_min, column_max. destruct negative.
  - rewrite (fold_min_minus_infinity t x Hy). reflexivity.
  - rewrite (fold_max_plus_infinity t x Hy).
    now destruct (fold_left (fun m y => if ext_ltb y m then y else m) t x).
Qed.

(** ** Data preparation, stage by stage *)

Section PrepareFacts.

Variable parse_float : string -> option Q.
Variable parse_year : string -> option extended.
Variable choice : nat -> nat -> list nat.
Variable arith : Arithmetic.

Lemma notna_coerce (r : Raw.t) (k : Kept.t) :
  notna (coerce parse_float parse_year r) = Some k ->
  Kept.ix k = Raw.ix r
  /\ to_numeric parse_year (Raw.iyear r) = Some (Kept.iyear k)
  /\ Raw.targtype1_txt r = Some (Kept.targtype1_txt k)
  /\ Kept.nkill k = fillna 0 (to_numeric parse_float (Raw.nkill r))
  /\ Kept.nwound k = fillna 0 (to_numeric parse_float (Raw.nwound r)).
Proof.
  unfold notna, coerce. simpl.
  destruct (to_numeric parse_year (Raw.iyear r)) as [y | ];
    [ | discriminate ].
  destruct (Raw.targtype1_txt r) as [t | ]; [ | discriminate ].
  intros H. injection H as <-. simpl. repeat split.
Qed.

Lemma notna_coerce_present (r : Raw.t) :
  is_some (notna (coerce parse_float parse_year r))
  = year_and_target_present parse_year r.
Proof.
  unfold notna, coerce, year_and_target_present. simpl.
  destruct (to_numeric parse_year (Raw.iyear r)); [ | reflexivity ].
  now destruct (Raw.targtype1_txt r).
Qed.

Lemma In_dropna (l : list Coerced.t) (k : Kept.t) :
  In k (dropna l) <-> exists r, In r l /\ notna r = Some k.
Proof.
  induction l as [ | a l IH ]; simpl.
  - split; [ intros [] | intros (r & [] & _) ].
  - destruct (notna a) as [j | ] eqn:E; simpl; rewrite ?IH; split.
    + intros [<- | (r & Hr & Hn)]; [ exists a | exists r ]; auto.
    + intros (r & [<- | Hr] & Hn); [ left; congruence | right; eauto ].
    + intros (r & Hr & Hn). exists r. auto.
    + intros (r & [<- | Hr] & Hn); [ congruence | eauto ].
Qed.

Lemma In_clean (df : DataFrame) (k : Kept.t) :
  In k (clean parse_float parse_year df) <->
  exists r, In r (records df)
            /\ notna (coerce parse_float parse_year r) = Some k
            /\ ext_ltb (Finite 1900) (Kept.iyear k) = true.
Proof.
  unfold clean, after_1900.
  rewrite filter_In, In_dropna. split.
  - intros ((c & Hc & Hn) & Hy). apply in_map_iff in Hc.
    destruct Hc as (r & <- & Hr). exists r. auto.
  - intros (r & Hr & Hn & Hy). split; [ | exact Hy ].
    exists (coerce parse_float parse_year r).
    split; [ now apply in_map | exact Hn ].
Qed.

Lemma In_derive (l : list Kept.t) (q : Retained.t) :
  In q (derive arith l) ->
  In (Retained.base q) l
  /\ Retained.total_casualties q = casualties arith (Retained.base q).
Proof.
  unfold derive. rewrite in_map_iff. intros (i & <- & Hi). simpl. auto.
Qed.

Lemma derive_In (l : list Kept.t) (k : Kept.t) :
  In k l -> exists q, In q (derive arith l) /\ Retained.base q = k.
Proof.
  intros Hi. unfold derive. eexists. split.
  - apply in_map_iff. exists k. split; [ reflexivity | exact Hi ].
  - reflexivity.
Qed.

(** Where a retained row comes from, and what it holds. *)
Lemma In_retained (df : DataFrame) (q : Retained.t) :
  In q (retained parse_float parse_year arith df) ->
  (exists r, In r (records df) /\ retained_from parse_float parse_year r q)
  /\ ext_ltb (Finite 1900) (Retained.iyear q) = true
  /\ Retained.total_casualties q
     = series_add arith (Retained.nkill q) (Retained.nwound q).
Proof.
  intros Hq. apply In_derive in Hq. destruct Hq as (Hb & Ht).
  apply In_clean in Hb. destruct Hb as (r & Hr & Hn & Hy).
  apply notna_coerce in Hn. split; [ | split ].
  - exists r. split; [ exact Hr | exact Hn ].
  - exact Hy.
  - exact Ht.
Qed.


Lemma In_sample_if_large {A : Type} (n : nat) (l : list A) (x : A) :
  In x (sample_if_large choice n l) -> In x l.
Proof.
  unfold sample_if_large, sample.
  destruct (n <? length l)%nat; [ apply In_take | auto ].
Qed.

(** [load_and_prepare_data] once the four columns are there: line 45
    raises on a frame without rows and on a frame with an infinite year,
    and the frame is returned otherwise. *)
Lemma load_columns_present (df : DataFrame) (n : nat) :
  first_missing df = None ->
  load_and_prepare_data parse_float parse_year choice arith df n =
  match sample_if_large choice n (retained parse_float parse_year arith df)
  with
  | [] => Raise (ValueError "cannot convert float NaN to integer")
  | _ :: _ =>
      if forallb has_finite_year
                 (sample_if_large choice n
                    (retained parse_float parse_year arith df))
      then Ok (finite_rows
                 (sample_if_large choice n
                    (retained parse_float parse_year arith df)))
      else Raise (OverflowError "cannot convert float infinity to integer")
  end.
Proof.
  intros H. unfold load_and_prepare_data. rewrite H.
  destruct (sample_if_large choice n
              (retained parse_float parse_year arith df))
    as [ | q out ] eqn:E.
  - reflexivity.
  - destruct (forallb has_finite_year (q :: out)) eqn:F.
    + destruct (year_range_finite (q :: out)) as (v & ->);
        [ discriminate | exact F | reflexivity ].
    + now rewrite (year_range_infinite _ F).
Qed.

Lemma load_column_missing (df : DataFrame) (n : nat) (col : string) :
  first_missing df = Some col ->
  load_and_prepare_data parse_float parse_year choice arith df n
  = Raise (ValueError (missing_column_message col)).
Proof. intros H. unfold load_and_prepare_data. now rewrite H. Qed.

Lemma load_Ok (df : DataFrame) (n : nat) (out : list Prepared.t) :
  load_and_prepare_data parse_float parse_year choice arith df n = Ok out ->
  first_missing df = None
  /\ out = finite_rows
             (sample_if_large choice n
                (retained parse_float parse_year arith df))
  /\ sample_if_large choice n (retained parse_float parse_year arith df)
     <> []
  /\ forallb has_finite_year
             (sample_if_large choice n
                (retained parse_float parse_year arith df)) = true.
Proof.
  intros H. destruct (first_missing df) as [col | ] eqn:E.
  - erewrite load_column_missing in H by exact E. discriminate.
  - rewrite load_columns_present in H by exact E.
    destruct (sample_if_large choice n
                (retained parse_float parse_year arith df))
      as [ | q l ]; [ discriminate | ].
    destruct (forallb has_finite_year (q :: l)); [ | discriminate ].
    injection H as <-. repeat split. discriminate.
Qed.

(** The dataset that is returned has a row. *)
Lemma load_Ok_not_empty (df : DataFrame) (n : nat) (out : list Prepared.t) :
  load_and_prepare_data parse_float parse_year choice arith df n = Ok out ->
  out <> [].
Proof.
  intros H. apply load_Ok in H. destruct H as (_ & -> & Hne & Hfin).
  intros E. apply Hne. exact (finite_rows_nil _ Hfin E).
Qed.

(** Every row of the prepared dataset is a retained row. *)
Lemma load_Ok_retained (df : DataFrame) (n : nat) (out : list Prepared.t)
      (p : Prepared.t) :
  load_and_prepare_data parse_float parse_year choice arith df n = Ok out ->
  In p out ->
  exists q, In q (retained parse_float parse_year arith df)
            /\ finite_row q = Some p.
Proof.
  intros H Hp. apply load_Ok in H. destruct H as (_ & -> & _).
  apply In_finite_rows in Hp. destruct Hp as (q & Hq & Hrow).
  exists q. split; [ exact (In_sample_if_large _ _ _ Hq) | exact Hrow ].
Qed.

Lemma prepared_from_retained (r : Raw.t) (q : Retained.t) (p : Prepared.t) :
  retained_from parse_float parse_year r q ->
  finite_row q = Some p ->
  prepared_from parse_float parse_year r p.
Proof.
  intros (H1 & H2 & H3 & H4 & H5) Hrow.
  destruct (finite_row_Some _ _ Hrow) as (E1 & E2 & E3 & E4 & E5 & _).
  unfold prepared_from. rewrite E1, E3, E4, E5, <- E2. auto.
Qed.

(** Where a row of the prepared dataset comes from, and what it holds. *)
Lemma In_prepared (df : DataFrame) (n : nat) (out : list Prepared.t)
      (p : Prepared.t) :
  load_and_prepare_data parse_float parse_year choice arith df n = Ok out ->
  In p out ->
  (exists r, In r (records df) /\ prepared_from parse_float parse_year r p)
  /\ 1900 < Prepared.iyear p
  /\ Prepared.total_casualties p
     = series_add arith (Prepared.nkill p) (Prepared.nwound p).
Proof.
  intros Hload Hp.
  destruct (load_Ok_retained _ _ _ _ Hload Hp) as (q & Hq & Hrow).
  destruct (In_retained _ _ Hq) as ((r & Hr & Hfrom) & Hy & Ht).
  destruct (finite_row_Some _ _ Hrow) as (_ & E2 & _ & E4 & E5 & E6 & _).
  split; [ | split ].
  - exists r. split; [ exact Hr | ].
    exact (prepared_from_retained _ _ _ Hfrom Hrow).
  - rewrite E2 in Hy. now apply ext_ltb_finite.
  - now rewrite E4, E5, E6.
Qed.

(** *** Which rows are kept, by index label *)


(** The index labels and the years of the rows cleaning keeps are those
    of the records that pass the two tests. *)
Lemma keys_clean (df : DataFrame) :
  map (fun k => (Kept.ix k, Some (Kept.iyear k)))
      (clean parse_float parse_year df)
  = map (raw_key parse_year)
        (filter (passes_filters parse_year) (records df)).
Proof.
  unfold clean, after_1900, passes_filters.
  induction (records df) as [ | r rs IH ]; cbn -[ext_ltb];
    [ reflexivity | ].
  rewrite <- notna_coerce_present.
  destruct (notna (coerce parse_float parse_year r)) as [i | ] eqn:E;
    cbn -[ext_ltb].
  - destruct (notna_coerce _ _ E) as (Hix & Hy & _).
    unfold year_after_1900 at 1. rewrite Hy.
    destruct (ext_ltb (Finite 1900) (Kept.iyear i)); cbn -[ext_ltb].
    + rewrite IH. f_equal. unfold raw_key. now rewrite Hix, Hy.
    + exact IH.
  - exact IH.
Qed.

Lemma keys_retained (df : DataFrame) :
  map retained_key (retained parse_float parse_year arith df)
  = map (raw_key parse_year)
        (filter (passes_filters parse_year) (records df)).
Proof.
  rewrite <- keys_clean. unfold retained, derive. now rewrite map_map.
Qed.

Lemma ix_retained (df : DataFrame) :
  map Retained.ix (retained parse_float parse_year arith df)
  = map Raw.ix (filter (passes_filters parse_year) (records df)).
Proof.
  transitivity
    (map fst (map retained_key
                  (retained parse_float parse_year arith df))).
  - now rewrite map_map.
  - rewrite keys_retained, map_map. reflexivity.
Qed.

Lemma map_sample_if_large {A B : Type} (f : A -> B) (n : nat) (l : list A) :
  map f (sample_if_large choice n l) = sample_if_large choice n (map f l).
Proof.
  unfold sample_if_large, sample. rewrite length_map.
  destruct (n <? length l)%nat; [ apply map_take | reflexivity ].
Qed.

(** The index labels of the prepared dataset, in closed form: they depend
    on the header, on the index labels and the years of the records that
    pass the two tests, and on the sample limit. *)
Lemma load_ix (df : DataFrame) (n : nat) :
  result_map (map Prepared.ix)
             (load_and_prepare_data parse_float parse_year choice arith
                                    df n)
  = match first_missing df with
    | Some col => Raise (ValueError (missing_column_message col))
    | None =>
        match sample_if_large choice n
                (map (raw_key parse_year)
                     (filter (passes_filters parse_year) (records df)))
        with
        | [] => Raise (ValueError "cannot convert float NaN to integer")
        | _ :: _ =>
            if forallb finite_key
                 (sample_if_large choice n
                    (map (raw_key parse_year)
                         (filter (passes_filters parse_year) (records df))))
            then Ok (map fst
                       (sample_if_large choice n
                          (map (raw_key parse_year)
                               (filter (passes_filters parse_year)
                                       (records df)))))
            else
              Raise (OverflowError "cannot convert float infinity to integer")
        end
    end.
Proof.
  destruct (first_missing df) as [col | ] eqn:E.
  - now erewrite load_column_missing by exact E.
  - rewrite load_columns_present by exact E.
    rewrite <- keys_retained, <- map_sample_if_large.
    rewrite finite_key_retained, map_map.
    destruct (sample_if_large choice n
                (retained parse_float parse_year arith df))
      as [ | q l ]; [ reflexivity | ].
    cbn [map].
    destruct (forallb has_finite_year (q :: l)) eqn:F; [ | reflexivity ].
    cbn [result_map]. f_equal. exact (ix_finite_rows _ F).
Qed.

Lemma passes_filters_same (r r' : Raw.t) :
  same_but_casualties r r' ->
  passes_filters parse_year r = passes_filters parse_year r'.
Proof.
  intros (_ & Hy & _ & Ht).
  unfold passes_filters, year_and_target_present, year_after_1900.
  now rewrite Hy, Ht.
Qed.

Lemma keys_filter_same (rs rs' : list Raw.t) :
  Forall2 same_but_casualties rs rs' ->
  map (raw_key parse_year) (filter (passes_filters parse_year) rs)
  = map (raw_key parse_year) (filter (passes_filters parse_year) rs').
Proof.
  induction 1 as [ | r r' rs rs' Hr _ IH ]; simpl; [ reflexivity | ].
  rewrite <- (passes_filters_same _ _ Hr).
  destruct (passes_filters parse_year r); simpl; [ | exact IH ].
  rewrite IH. f_equal. destruct Hr as (Hix & Hy & _).
  unfold raw_key. now rewrite Hix, Hy.
Qed.

(** *** Sampling *)

Lemma no_sampling_within_limit {A : Type} (n : nat) (l : list A) :
  (length l <= n)%nat -> sample_if_large choice n l = l.
Proof.
  intros H. unfold sample_if_large.
  destruct (Nat.ltb_spec n (length l)); [ lia | reflexivity ].
Qed.

Lemma sampling_over_limit {A : Type} (n : nat) (l : list A) :
  (n < length l)%nat ->
  sample_if_large choice n l = take l (choice (length l) n).
Proof.
  intros H. unfold sample_if_large, sample.
  destruct (Nat.ltb_spec n (length l)); [ reflexivity | lia ].
Qed.

Lemma finite_years_sampled (n : nat) (l : list Retained.t) :
  forallb has_finite_year l = true ->
  forallb has_finite_year (sample_if_large choice n l) = true.
Proof.
  rewrite !forallb_forall. intros H q Hq.
  exact (H q (In_sample_if_large _ _ _ Hq)).
Qed.

(** With more retained rows than a positive limit, and no infinite year
    among them, the prepared dataset is a draw of exactly [n] retained
    rows at pairwise distinct positions. *)
Lemma load_samples_limit_rows (df : DataFrame) (n : nat) :
  first_missing df = None ->
  (0 < n)%nat ->
  (n < length (retained parse_float parse_year arith df))%nat ->
  forallb has_finite_year (retained parse_float parse_year arith df)
  = true ->
  valid_choice (length (retained parse_float parse_year arith df)) n
               (choice (length (retained parse_float parse_year arith df))
                       n) ->
  exists out,
    load_and_prepare_data parse_float parse_year choice arith df n = Ok out
    /\ length out = n
    /\ (forall p, In p out ->
                  exists q,
                    In q (retained parse_float parse_year arith df)
                    /\ finite_row q = Some p)
    /\ out = finite_rows
               (take (retained parse_float parse_year arith df)
                     (choice
                        (length (retained parse_float parse_year arith df))
                        n))
    /\ NoDup (choice (length (retained parse_float parse_year arith df))
                     n).
Proof.
  intros Hcols Hpos Hlt Hfin (Hlen & Hnodup & Hrange).
  pose proof (finite_years_sampled n _ Hfin) as Hs.
  rewrite load_columns_present by exact Hcols. rewrite Hs.
  rewrite sampling_over_limit in * by exact Hlt.
  pose proof (length_take (retained parse_float parse_year arith df)
                          _ Hrange) as Htake.
  rewrite Hlen in Htake.
  destruct (take (retained parse_float parse_year arith df)
                 (choice
                    (length (retained parse_float parse_year arith df)) n))
    as [ | q l ] eqn:E.
  - simpl in Htake. lia.
  - exists (finite_rows (q :: l)). split; [ reflexivity | ].
    split; [ now rewrite (length_finite_rows _ Hs) | ].
    split; [ | split; [ reflexivity | exact Hnodup ] ].
    intros p Hp. apply In_finite_rows in Hp.
    destruct Hp as (q' & Hq' & Hrow). exists q'.
    split; [ | exact Hrow ]. rewrite <- E in Hq'.
    exact (In_take _ _ _ Hq').
Qed.

(** With at most [n] retained rows, at least one, and no infinite year
    among them, the prepared dataset is the retained rows. *)
Lemma load_returns_all_within_limit (df : DataFrame) (n : nat) :
  first_missing df = None ->
  retained parse_float parse_year arith df <> [] ->
  (length (retained parse_float parse_year arith df) <= n)%nat ->
  forallb has_finite_year (retained parse_float parse_year arith df)
  = true ->
  load_and_prepare_data parse_float parse_year choice arith df n
  = Ok (finite_rows (retained parse_float parse_year arith df)).
Proof.
  intros Hcols Hne Hle Hfin.
  rewrite load_columns_present by exact Hcols.
  rewrite no_sampling_within_limit by exact Hle. rewrite Hfin.
  destruct (retained parse_float parse_year arith df);
    [ congruence | reflexivity ].
Qed.

(** A draw of no row leaves an empty frame, on which line 45 raises. *)
Lemma load_raises_on_empty_sample (df : DataFrame) :
  first_missing df = None ->
  retained parse_float parse_year arith df <> [] ->
  choice (length (retained parse_float parse_year arith df)) 0 = [] ->
  load_and_prepare_data parse_float parse_year choice arith df 0
  = Raise (ValueError "cannot convert float NaN to integer").
Proof.
  intros Hcols Hne Hdraw.
  rewrite load_columns_present by exact Hcols.
  rewrite sampling_over_limit.
  - rewrite Hdraw. reflexivity.
  - destruct (retained parse_float parse_year arith df);
      [ congruence | simpl; lia ].
Qed.

(** *** The header check *)

Lemma first_missing_Some (df : DataFrame) (col : string) :
  first_missing df = Some col ->
  In col required_cols /\ has_column df col = false.
Proof.
  intros H. apply find_some in H. destruct H as (Hin & Hneg).
  split; [ exact Hin | now apply negb_true_iff ].
Qed.

Lemma first_missing_None (df : DataFrame) :
  first_missing df = None <->
  forall col, In col required_cols -> has_column df col = true.
Proof.
  unfold first_missing. split.
  - intros H col Hin. pose proof (find_none _ _ H col Hin) as Hn.
    now apply negb_false_iff.
  - intros H. destruct (find _ required_cols) as [col | ] eqn:E;
      [ | reflexivity ].
    apply find_some in E. destruct E as (Hin & Hneg).
    rewrite (H col Hin) in Hneg. discriminate.
Qed.

Lemma nan_message_is_not_missing_column (col : string) :
  ValueError "cannot convert float NaN to integer"
  <> ValueError (missing_column_message col).
Proof. unfold missing_column_message. simpl. discriminate. Qed.

(** *** The addition of [int64] columns *)

Lemma wrap_int64_in_range (z : Z) :
  (- 2 ^ 63 <= z < 2 ^ 63)%Z -> wrap_int64 z = z.
Proof.
  intros H. unfold wrap_int64. rewrite Z.mod_small; lia.
Qed.

Lemma int64_add_exact (a b : Z) :
  (- 2 ^ 63 <= a + b < 2 ^ 63)%Z ->
  int64_add (inject_Z a) (inject_Z b) == inject_Z a + inject_Z b.
Proof.
  intros H. unfold int64_add. rewrite !Qfloor_Z.
  rewrite (wrap_int64_in_range _ H). now rewrite inject_Z_plus.
Qed.

(** *** The prepared dataset *)

(** C2.  A kill or wound cell that is no number becomes 0 and a numeric
    one keeps its value; and two files that differ only in their kill and
    wound cells are prepared into the same rows (same index labels, same
    order) or fail alike: no row is dropped for its casualty cells. *)
Theorem casualty_cells_coerced_never_dropped
        (df df' : DataFrame) (n : nat) :
  columns df = columns df' ->
  Forall2 same_but_casualties (records df) (records df') ->
  result_map (map Prepared.ix)
             (load_and_prepare_data parse_float parse_year choice arith
                                    df n)
  = result_map (map Prepared.ix)
               (load_and_prepare_data parse_float parse_year choice arith
                                      df' n)
  /\ (forall out p,
         load_and_prepare_data parse_float parse_year choice arith df n
         = Ok out ->
         In p out ->
         exists r,
           In r (records df)
           /\ prepared_from parse_float parse_year r p
           /\ (to_numeric parse_float (Raw.nkill r) = None ->
               Prepared.nkill p = 0)
           /\ (to_numeric parse_float (Raw.nwound r) = None ->
               Prepared.nwound p = 0)
           /\ (forall q, to_numeric parse_float (Raw.nkill r) = Some q ->
                         Prepared.nkill p = q)
           /\ (forall q, to_numeric parse_float (Raw.nwound r) = Some q ->
                         Prepared.nwound p = q)).
Proof.
  intros Hcols Hrecs. split.
  - rewrite !load_ix. unfold first_missing, has_column.
    rewrite Hcols, (keys_filter_same _ _ Hrecs). reflexivity.
  - intros out p Hload Hp.
    destruct (In_prepared _ _ _ _ Hload Hp) as ((r & Hr & Hfrom) & _).
    exists r. split; [ exact Hr | ]. split; [ exact Hfrom | ].
    destruct Hfrom as (_ & _ & _ & Hk & Hw).
    rewrite Hk, Hw. repeat split; intros; subst;
      match goal with H : _ = _ |- _ => rewrite H end; reflexivity.
Qed.


(** C4, as amended.  In every row of the prepared dataset,
    [total_casualties] is the sum of the row's kill and wound counts as the
    column addition of line 35 computes it, the counts being the coerced
    cells of the CSV record the row comes from; it is their mathematical
    sum wherever that addition is exact, as the addition of two [int64]
    columns is on whole counts whose sum is between -2^63 and 2^63 - 1. *)
Theorem total_casualties_is_the_column_sum
        (df : DataFrame) (n : nat) (out : list Prepared.t)
        (p : Prepared.t) :
  load_and_prepare_data parse_float parse_year choice arith df n = Ok out ->
  In p out ->
  Prepared.total_casualties p
  = series_add arith (Prepared.nkill p) (Prepared.nwound p)
  /\ (exact_sum arith (Prepared.nkill p) (Prepared.nwound p) ->
      Prepared.total_casualties p == Prepared.nkill p + Prepared.nwound p)
  /\ (series_add arith = int64_add ->
      forall a b : Z,
        Prepared.nkill p = inject_Z a ->
        Prepared.nwound p = inject_Z b ->
        (- 2 ^ 63 <= a + b < 2 ^ 63)%Z ->
        Prepared.total_casualties p == Prepared.nkill p + Prepared.nwound p)
  /\ exists r,
      In r (records df)
      /\ Prepared.ix p = Raw.ix r
      /\ Prepared.total_casualties p
         = series_add arith
             (fillna 0 (to_numeric parse_float (Raw.nkill r)))
             (fillna 0 (to_numeric parse_float (Raw.nwound r))).
Proof.
  intros Hload Hp.
  destruct (In_prepared _ _ _ _ Hload Hp)
    as ((r & Hr & Hfrom) & _ & Htotal).
  split; [ exact Htotal | ]. split; [ | split ].
  - intros Hexact. rewrite Htotal. exact Hexact.
  - intros Hint a b Ha Hb Hrange.
    rewrite Htotal, Hint, Ha, Hb. now apply int64_add_exact.
  - exists r. destruct Hfrom as (Hix & _ & _ & Hk & Hw).
    split; [ exact Hr | ]. split; [ exact Hix | ].
    now rewrite Htotal, Hk, Hw.
Qed.

(** C9.  Every row of the prepared dataset has a year after 1900, and no
    row of it comes from a record whose numeric year is 1900 or
    earlier. *)
Theorem prepared_years_after_1900
        (df : DataFrame) (n : nat) (out : list Prepared.t) :
  load_and_prepare_data parse_float parse_year choice arith df n = Ok out ->
  (forall p, In p out -> 1900 < Prepared.iyear p)
  /\ (forall r y,
         In r (records df) ->
         to_numeric parse_year (Raw.iyear r) = Some (Finite y) ->
         y <= 1900 ->
         forall p, In p out -> ~ prepared_from parse_float parse_year r p)
  /\ map Retained.ix (retained parse_float parse_year arith df)
     = map Raw.ix (filter (passes_filters parse_year) (records df)).
Proof.
  intros Hload. split; [ | split ].
  - intros p Hp.
    now destruct (In_prepared _ _ _ _ Hload Hp) as (_ & Hy & _).
  - intros r y _ Hy Hle p Hp (_ & Hyp & _).
    destruct (In_prepared _ _ _ _ Hload Hp) as (_ & Hlt & _).
    rewrite Hy in Hyp. injection Hyp as ->.
    exact (Qlt_not_le _ _ Hlt Hle).
  - apply ix_retained.
Qed.

(** C6.  [load_and_prepare_data] raises the missing-column [ValueError]
    exactly when a required column is absent from the header, naming the
    first absent one; with the four columns present it goes on to the
    preparation, whose only exceptions are the two conversions of line 45,
    of [NaN] on an empty frame and of an infinite year, and which returns
    the frame otherwise; and [attack_pivot] raises no [ValueError] at
    all. *)
Theorem missing_column_is_the_only_validation_error
        (df : DataFrame) (n : nat) :
  ((exists col, In col required_cols /\ has_column df col = false)
   <-> exists col,
        load_and_prepare_data parse_float parse_year choice arith df n
        = Raise (ValueError (missing_column_message col)))
  /\ (forall col,
         first_missing df = Some col ->
         load_and_prepare_data parse_float parse_year choice arith df n
         = Raise (ValueError (missing_column_message col)))
  /\ ((forall col, In col required_cols -> has_column df col = true) ->
      load_and_prepare_data parse_float parse_year choice arith df n
      = match sample_if_large choice n
                (retained parse_float parse_year arith df)
        with
        | [] => Raise (ValueError "cannot convert float NaN to integer")
        | _ :: _ =>
            if forallb has_finite_year
                 (sample_if_large choice n
                    (retained parse_float parse_year arith df))
            then Ok (finite_rows
                       (sample_if_large choice n
                          (retained parse_float parse_year arith df)))
            else
              Raise (OverflowError "cannot convert float infinity to integer")
        end)
  /\ (forall df1 e,
         attack_pivot df1 = Raise e -> exists key, e = KeyError key).
Proof.
  split; [ | split; [ | split ] ].
  - split.
    + intros (col & Hin & Habsent).
      destruct (first_missing df) as [c | ] eqn:E.
      * exists c. now apply load_column_missing.
      * rewrite first_missing_None in E.
        rewrite (E col Hin) in Habsent. discriminate.
    + intros (col & Hload).
      destruct (first_missing df) as [c | ] eqn:E.
      * exists c. now apply first_missing_Some.
      * rewrite load_columns_present in Hload by exact E.
        destruct (sample_if_large choice n
                    (retained parse_float parse_year arith df))
          as [ | q l ].
        -- injection Hload as Hmsg. exfalso.
           apply (@nan_message_is_not_missing_column col). now f_equal.
        -- destruct (forallb has_finite_year (q :: l)); discriminate.
  - intros col. apply load_column_missing.
  - intros Hall. apply load_columns_present.
    now apply first_missing_None.
  - intros df1 e. unfold attack_pivot.
    destruct (negb (has_column df1 "iyear")).
    + intros H. injection H as <-. eauto.
    + destruct (negb (has_column df1 "attacktype1_txt")).
      * intros H. injection H as <-. eauto.
      * discriminate.
Qed.

End PrepareFacts.

(** ** The filter loop *)

Lemma nth_error_map_middle {A B : Type} (f : A -> B) (pre suf : list A)
      (x : A) :
  nth_error (map f (pre ++ x :: suf)) (length pre) = Some (f x).
Proof.
  rewrite nth_error_map, nth_error_app2 by lia.
  now rewrite Nat.sub_diag.
Qed.

Lemma loop_body_at (pre suf : list Shown.t) (x : Shown.t) (start end_ : Q)
      (selected : list (option string)) (st : LoopState) :
  loop_body (to_dict_list (pre ++ x :: suf)) start end_ selected
            (length pre) st
  = Some (if loop_test start end_ selected x then pushed st [x] else st).
Proof.
  unfold loop_body, to_dict_list, loop_test. simpl.
  rewrite !nth_error_map_middle. simpl.
  destruct (Qle_bool start (Prepared.iyear (Shown.row x))
            && Qle_bool (Prepared.iyear (Shown.row x)) end_
            && includes selected
                        (Some (Prepared.targtype1_txt (Shown.row x))));
    reflexivity.
Qed.

Lemma pushed_nil (st : LoopState) : pushed st [] = st.
Proof.
  destruct st as [[y t k w tc cs c] tk tw]. unfold pushed. simpl.
  now rewrite !app_nil_r.
Qed.

Lemma pushed_cons (st : LoopState) (x : Shown.t) (l : list Shown.t) :
  pushed (pushed st [x]) l = pushed st (x :: l).
Proof.
  unfold pushed. simpl. now rewrite <- !app_assoc.
Qed.

(** The loop from index [length pre] on pushes the rows of [suf] that pass
    the test, in their order. *)
Lemma loop_from (suf pre : list Shown.t) (start end_ : Q)
      (selected : list (option string)) (st : LoopState) :
  fold_left
    (fun st i =>
       s <- st ;;
       loop_body (to_dict_list (pre ++ suf)) start end_ selected i s)
    (seq (length pre) (length suf)) (Some st)
  = Some (pushed st (filter (loop_test start end_ selected) suf)).
Proof.
  revert pre st. induction suf as [ | x suf IH ]; intros pre st; simpl.
  - now rewrite pushed_nil.
  - rewrite loop_body_at.
    replace (pre ++ x :: suf) with ((pre ++ [x]) ++ suf)
      by now rewrite <- app_assoc.
    replace (S (length pre)) with (length (pre ++ [x]))
      by (rewrite length_app; simpl; lia).
    rewrite IH.
    destruct (loop_test start end_ selected x); simpl.
    + now rewrite pushed_cons.
    + reflexivity.
Qed.

Lemma filter_loop_spec (full : list Shown.t) (start end_ : Q)
      (selected : list (option string)) :
  filter_loop (to_dict_list full) start end_ selected
  = Some {| new_data :=
              to_dict_list (filter (loop_test start end_ selected) full);
            total_killed :=
              sum_of (fun r => Prepared.nkill (Shown.row r))
                     (filter (loop_test start end_ selected) full);
            total_wounded :=
              sum_of (fun r => Prepared.nwound (Shown.row r))
                     (filter (loop_test start end_ selected) full) |}.
Proof.
  unfold filter_loop.
  replace (length (Columns.iyear (to_dict_list full))) with (length full)
    by (simpl; now rewrite length_map).
  exact (loop_from full [] start end_ selected loop_init).
Qed.

(** [includes] on the labels at the active positions is membership in the
    selected categories. *)
Lemma includes_selected (labels : list string) (active : list nat)
      (t : string) :
  includes (map (fun i => nth_error labels i) active) (Some t)
  = existsb (String.eqb t)
            (flat_map (fun i => match nth_error labels i with
                                | Some s => [s]
                                | None => []
                                end) active).
Proof.
  unfold includes.
  induction active as [ | i active IH ]; simpl; [ reflexivity | ].
  rewrite existsb_app, <- IH.
  destruct (nth_error labels i) as [s | ]; simpl.
  - now rewrite orb_false_r, String.eqb_sym.
  - reflexivity.
Qed.

Lemma loop_test_selection (p : Page) (start end_ : Q) (full : list Shown.t) :
  filter (loop_test start end_
                    (map (fun i => nth_error (checkbox_labels p) i)
                         (checkbox_active p))) full
  = filter_spec start end_ (selected_labels p) full.
Proof.
  unfold filter_spec. apply filter_ext. intros r.
  unfold loop_test, in_selection, selected_labels.
  now rewrite includes_selected.
Qed.


Lemma in_selection_iff (start end_ : Q) (selected : list string)
      (r : Shown.t) :
  in_selection start end_ selected r = true <->
  start <= Prepared.iyear (Shown.row r)
  /\ Prepared.iyear (Shown.row r) <= end_
  /\ In (Prepared.targtype1_txt (Shown.row r)) selected.
Proof.
  unfold in_selection.
  rewrite !andb_true_iff, !Qle_bool_iff, existsb_exists. split.
  - intros ((H1 & H2) & s & Hs & Heq). apply String.eqb_eq in Heq.
    subst s. auto.
  - intros (H1 & H2 & H3). split; [ auto | ].
    exists (Prepared.targtype1_txt (Shown.row r)).
    split; [ exact H3 | apply String.eqb_refl ].
Qed.

Lemma filter_spec_no_category (start end_ : Q) (full : list Shown.t) :
  filter_spec start end_ [] full = [].
Proof.
  unfold filter_spec. induction full as [ | r full IH ]; simpl.
  - reflexivity.
  - unfold in_selection at 1. simpl. now rewrite andb_false_r.
Qed.

Lemma filter_spec_empty_range (start end_ : Q) (selected : list string)
      (full : list Shown.t) :
  end_ < start -> filter_spec start end_ selected full = [].
Proof.
  intros Hlt. unfold filter_spec.
  induction full as [ | r full IH ]; simpl; [ reflexivity | ].
  destruct (in_selection start end_ selected r) eqn:E; [ | exact IH ].
  apply in_selection_iff in E. destruct E as (H1 & H2 & _).
  exfalso. apply (Qlt_not_le _ _ Hlt). exact (Qle_trans _ _ _ H1 H2).
Qed.

(** ** The callback *)

Section CallbackFacts.

Variable arith : Arithmetic.
Variable number_to_string : Q -> string.
Variable toLocaleString : Q -> string.

(** The callback, in terms of the filter of the specification. *)
Lemma callback_spec (p : Page) (full : list Shown.t) (start end_ : Q) :
  original_data p = to_dict_list full ->
  slider_value p = (start, end_) ->
  callback arith number_to_string toLocaleString p
  = let kept := filter_spec start end_ (selected_labels p) full in
    let x_vals := map (fun r => Prepared.nkill (Shown.row r)) kept in
    let y_vals := map (fun r => Prepared.nwound (Shown.row r)) kept in
    Some {| source_data := to_dict_list kept;
            source_changes := S (source_changes p);
            legend_field := legend_field p;
            title_text := filtered_title number_to_string start end_;
            stats_text :=
              filtered_stats
                number_to_string toLocaleString (length kept) start end_
                (sum_of (fun r => Prepared.nkill (Shown.row r)) kept)
                (sum_of (fun r => Prepared.nwound (Shown.row r)) kept);
            x_range :=
              if (0 <? length kept)%nat then rescale arith x_vals (x_range p)
              else x_range p;
            y_range :=
              if (0 <? length kept)%nat then rescale arith y_vals (y_range p)
              else y_range p;
            slider_start := slider_start p;
            slider_end := slider_end p;
            slider_value := slider_value p;
            checkbox_labels := checkbox_labels p;
            checkbox_active := checkbox_active p;
            original_data := original_data p |}.
Proof.
  intros Horig Hslider. unfold callback.
  rewrite Hslider, Horig, filter_loop_spec, loop_test_selection.
  simpl. rewrite !length_map. reflexivity.
Qed.


(** C10.  With no category checked, or with an empty year range, the
    filter selects no row; and when it selects no row the callback
    displays the empty dataset, sets the title to the year range and the
    statistics to 0 incidents, 0 killed and 0 wounded, and leaves the
    ranges of both axes as they were. *)
Theorem empty_selection_leaves_axis_ranges
        (p : Page) (full : list Shown.t) (start end_ : Q) :
  original_data p = to_dict_list full ->
  slider_value p = (start, end_) ->
  (checkbox_active p = [] ->
   filter_spec start end_ (selected_labels p) full = [])
  /\ (end_ < start ->
      filter_spec start end_ (selected_labels p) full = [])
  /\ (filter_spec start end_ (selected_labels p) full = [] ->
      exists p',
        callback arith number_to_string toLocaleString p = Some p'
        /\ source_data p' = Columns.empty
        /\ title_text p' = filtered_title number_to_string start end_
        /\ stats_text p'
           = filtered_stats number_to_string toLocaleString
                            0 start end_ 0 0
        /\ x_range p' = x_range p
        /\ y_range p' = y_range p).
Proof.
  intros Horig Hslider. split; [ | split ].
  - intros Hactive. unfold selected_labels. rewrite Hactive. simpl.
    apply filter_spec_no_category.
  - apply filter_spec_empty_range.
  - intros Hempty.
    rewrite (callback_spec p full start end_ Horig Hslider), Hempty.
    eexists. split; [ reflexivity | ]. simpl. repeat split.
Qed.

End CallbackFacts.

(** ** Distinct values and sorting *)

Lemma In_unique (l : list string) (x : string) :
  In x (unique l) <-> In x l.
Proof.
  induction l as [ | a l IH ]; simpl; [ tauto | ].
  rewrite filter_In, IH, negb_true_iff, String.eqb_neq. split.
  - intros [H | (H & _)]; auto.
  - intros [H | H]; [ auto | ].
    destruct (string_dec a x) as [-> | Hne]; auto.
Qed.

Lemma NoDup_unique (l : list string) : NoDup (unique l).
Proof.
  induction l as [ | a l IH ]; simpl; constructor.
  - rewrite filter_In, negb_true_iff, String.eqb_neq. intros (_ & H).
    now apply H.
  - now apply NoDup_filter.
Qed.

Lemma In_insert_sorted {A : Type} (le : A -> A -> bool) (a x : A)
      (l : list A) :
  In x (insert_sorted le a l) <-> a = x \/ In x l.
Proof.
  induction l as [ | b l IH ]; simpl; [ tauto | ].
  destruct (le a b); simpl; [ tauto | ]. rewrite IH. tauto.
Qed.

Lemma In_sorted {A : Type} (le : A -> A -> bool) (l : list A) (x : A) :
  In x (sorted le l) <-> In x l.
Proof.
  induction l as [ | a l IH ]; simpl; [ tauto | ].
  now rewrite In_insert_sorted, IH.
Qed.

Lemma NoDup_insert_sorted {A : Type} (le : A -> A -> bool) (a : A)
      (l : list A) :
  ~ In a l -> NoDup l -> NoDup (insert_sorted le a l).
Proof.
  induction l as [ | b l IH ]; simpl; intros Hnot Hnd.
  - constructor; [ auto | constructor ].
  - destruct (le a b).
    + constructor; [ simpl; tauto | exact Hnd ].
    + inversion Hnd as [ | ? ? Hb Hl ]; subst. constructor.
      * rewrite In_insert_sorted. intros [-> | H]; tauto.
      * apply IH; tauto.
Qed.

Lemma NoDup_sorted {A : Type} (le : A -> A -> bool) (l : list A) :
  NoDup l -> NoDup (sorted le l).
Proof.
  induction 1 as [ | a l Hnot _ IH ]; simpl; [ constructor | ].
  apply NoDup_insert_sorted; [ now rewrite In_sorted | exact IH ].
Qed.

(** ** The page *)

Section VisualizationFacts.

Variables Category20_20 Turbo256 : list string.
Variable format_int_grouped : Z -> string.
Variable format_int : Z -> string.
Variable format_float_grouped : Q -> string.

(** With 256 colours in the second palette, the index [i * step] of line
    62 is within the palette. *)
Lemma turbo_index_in_range (n_targets i : nat) :
  length Turbo256 = 256%nat ->
  (20 < n_targets)%nat ->
  (i < n_targets)%nat ->
  (i * (length Turbo256 / n_targets) < length Turbo256)%nat.
Proof.
  intros Hlen Hn Hi. rewrite Hlen.
  assert (Hstep : (n_targets * (256 / n_targets) <= 256)%nat)
    by (apply Nat.Div0.mul_div_le).
  destruct (256 / n_targets)%nat as [ | step ] eqn:E; [ lia | ].
  nia.
Qed.

(** What [create_visualization] returns on a frame with rows. *)
Lemma create_visualization_Ok (df : list Prepared.t) :
  df <> [] ->
  exists page,
    create_visualization Category20_20 Turbo256 format_int_grouped
                         format_int format_float_grouped df = Ok page.
Proof.
  intros Hne. destruct df as [ | p df ]; [ congruence | ].
  unfold create_visualization.
  destruct (create_color_mapping Category20_20 Turbo256 (p :: df))
    as [color_map unique_targets].
  simpl. eexists. reflexivity.
Qed.

Lemma create_visualization_fields (df : list Prepared.t) (page : Page) :
  create_visualization Category20_20 Turbo256 format_int_grouped
                       format_int format_float_grouped df = Ok page ->
  let color_map := fst (create_color_mapping Category20_20 Turbo256 df) in
  source_data page = to_dict_list (with_color color_map df)
  /\ original_data page = to_dict_list (with_color color_map df)
  /\ legend_field page = "targtype1_txt"%string
  /\ checkbox_labels page
     = sorted String.leb (unique (map Prepared.targtype1_txt df))
  /\ checkbox_active page = seq 0 (length (checkbox_labels page)).
Proof.
  unfold create_visualization, create_color_mapping. simpl.
  destruct (int_of_float
              (option_map Finite (series_min (map Prepared.iyear df))));
    [ | discriminate ].
  destruct (int_of_float
              (option_map Finite (series_max (map Prepared.iyear df))));
    [ | discriminate ].
  intros H. injection H as <-. simpl. repeat split.
Qed.

(** C7.  On a frame with rows [create_visualization] returns a page; the
    labels of its check boxes and the entries of its legend are pairwise
    distinct, and a text is among them exactly when it is the target type
    of a row of the frame. *)
Theorem legend_labels_are_the_distinct_target_types
        (df : list Prepared.t) :
  df <> [] ->
  exists page,
    create_visualization Category20_20 Turbo256 format_int_grouped
                         format_int format_float_grouped df = Ok page
    /\ NoDup (checkbox_labels page)
    /\ (forall t, In t (checkbox_labels page) <->
                  In t (map Prepared.targtype1_txt df))
    /\ NoDup (legend_labels page)
    /\ (forall t, In t (legend_labels page) <->
                  In t (map Prepared.targtype1_txt df)).
Proof.
  intros Hne. destruct (create_visualization_Ok df Hne) as (page & Hpage).
  exists page. split; [ exact Hpage | ].
  destruct (create_visualization_fields df page Hpage)
    as (Hsource & _ & Hfield & Hlabels & _).
  assert (Htargets :
            Columns.targtype1_txt (source_data page)
            = map Prepared.targtype1_txt df).
  { rewrite Hsource. simpl. unfold with_color. now rewrite map_map. }
  unfold legend_labels. rewrite Hfield, Hlabels, Htargets. simpl.
  split; [ apply NoDup_sorted, NoDup_unique | ].
  split; [ intros t; now rewrite In_sorted, In_unique | ].
  split; [ apply NoDup_unique | intros t; apply In_unique ].
Qed.

End VisualizationFacts.

(** ** Signs of the casualty counts *)

Section CountSigns.

Variable parse_float : string -> option Q.
Variable parse_year : string -> option extended.
Variable choice : nat -> nat -> list nat.
Variable arith : Arithmetic.
Variables Category20_20 Turbo256 : list string.
Variable format_int_grouped : Z -> string.
Variable format_int : Z -> string.
Variable format_float_grouped : Q -> string.
Variable number_to_string : Q -> string.
Variable toLocaleString : Q -> string.

Lemma fillna_nonnegative (v : option Q) :
  (forall q, v = Some q -> 0 <= q) -> 0 <= fillna 0 v.
Proof.
  intros H. destruct v as [q | ]; simpl.
  - now apply H.
  - apply Qle_refl.
Qed.

Lemma retained_nonnegative (df : DataFrame) (q : Retained.t) :
  Forall (counts_nonnegative parse_float) (records df) ->
  In q (retained parse_float parse_year arith df) ->
  0 <= Retained.nkill q /\ 0 <= Retained.nwound q.
Proof.
  intros Hall Hq.
  destruct (In_retained parse_float parse_year arith df q Hq)
    as ((r & Hr & Hfrom) & _).
  rewrite Forall_forall in Hall. destruct (Hall r Hr) as (Hk & Hw).
  destruct Hfrom as (_ & _ & _ & -> & ->).
  split; now apply fillna_nonnegative.
Qed.

(** C8, as amended.  When no kill or wound cell of the file holds a
    negative number, the kill and wound counts are non-negative in every
    retained row, in every row of the prepared dataset (after the derived
    columns and the sampling), and in every dataset the filter callback
    displays on the page made from the prepared dataset, whatever the
    slider and the check boxes select. *)
Theorem nonnegative_counts_are_preserved
        (df : DataFrame) (n : nat) (out : list Prepared.t) :
  Forall (counts_nonnegative parse_float) (records df) ->
  load_and_prepare_data parse_float parse_year choice arith df n = Ok out ->
  (forall q, In q (retained parse_float parse_year arith df) ->
             0 <= Retained.nkill q /\ 0 <= Retained.nwound q)
  /\ (forall p, In p out ->
                0 <= Prepared.nkill p /\ 0 <= Prepared.nwound p)
  /\ (forall page q q',
         create_visualization Category20_20 Turbo256 format_int_grouped
                              format_int format_float_grouped out
         = Ok page ->
         original_data q = original_data page ->
         callback arith number_to_string toLocaleString q = Some q' ->
         Forall (fun x => 0 <= x) (Columns.nkill (source_data q'))
         /\ Forall (fun x => 0 <= x) (Columns.nwound (source_data q'))).
Proof.
  intros Hall Hload.
  assert (Hout : forall p, In p out ->
                           0 <= Prepared.nkill p /\ 0 <= Prepared.nwound p).
  { intros p Hp.
    destruct (load_Ok_retained parse_float parse_year choice arith
                               df n out p Hload Hp) as (q & Hq & Hrow).
    destruct (finite_row_Some q p Hrow) as (_ & _ & _ & -> & -> & _).
    exact (retained_nonnegative df q Hall Hq). }
  split; [ intros q; apply retained_nonnegative, Hall | ].
  split; [ exact Hout | ].
  intros page q q' Hpage Horig Hcall.
  destruct (create_visualization_fields _ _ _ _ _ _ _ Hpage)
    as (_ & Hfull & _).
  rewrite <- Horig in Hfull.
  destruct (slider_value q) as [start end_] eqn:Hslider.
  rewrite (callback_spec arith number_to_string toLocaleString q _
                         start end_ Hfull Hslider) in Hcall.
  injection Hcall as <-. simpl.
  split; apply Forall_map, Forall_forall; intros r Hr;
    apply filter_In in Hr; destruct Hr as (Hr & _);
    apply in_map_iff in Hr; destruct Hr as (p & <- & Hp);
    simpl; now apply Hout.
Qed.

End CountSigns.

(** ** The properties on the sample file *)

(** C5: with one valid record and a sample limit of 0 the frame has more
    rows than the limit, the draw of 0 rows is empty, and
    [load_and_prepare_data] raises at line 45 instead of returning the 0
    sampled rows. *)
Theorem sample_limit_zero_raises :
  (0 < length (retained Sample.parse_float Sample.parse_year Sample.exact
                        Sample.one_incident))%nat
  /\ load_and_prepare_data Sample.parse_float Sample.parse_year
                           Sample.choice Sample.exact
                           Sample.one_incident 0
     = Raise (ValueError "cannot convert float NaN to integer").
Proof. split; [ simpl; lia | reflexivity ]. Qed.

(** C8, as stated, fails: a negative kill count of the file is kept as it
    is, so the counts of the prepared dataset are not all non-negative. *)
Lemma negative_kill_count_is_kept :
  ~ (forall (parse_float : string -> option Q)
            (parse_year : string -> option extended)
            (choice : nat -> nat -> list nat) (arith : Arithmetic)
            (df : DataFrame) (n : nat) (out : list Prepared.t)
            (p : Prepared.t),
        load_and_prepare_data parse_float parse_year choice arith df n
        = Ok out ->
        In p out ->
        0 <= Prepared.nkill p /\ 0 <= Prepared.nwound p).
Proof.
  intros H.
  destruct (load_and_prepare_data Sample.parse_float Sample.parse_year
                                  Sample.choice Sample.exact
                                  Sample.negative_count 5)
    as [out | e] eqn:E; [ | discriminate E ].
  vm_compute in E. injection E as <-.
  destruct (H Sample.parse_float Sample.parse_year Sample.choice
              Sample.exact Sample.negative_count 5%nat
              _ _ eq_refl (or_introl eq_refl)) as (Hk & _).
  now apply Hk.
Qed.

Lemma sample_wrapped :
  load_and_prepare_data Sample.parse_float Sample.parse_year Sample.choice
                        Sample.with_int64 Sample.huge_count 5
  = Ok Sample.wrapped.
Proof. vm_compute. reflexivity. Qed.

(** C4, as stated, fails: the sum of two [int64] columns wraps around, so
    the kill count 9223372036854775807 and the wound count 1 are given the
    total -9223372036854775808. *)
Lemma int64_total_wraps_around :
  ~ (forall (parse_float : string -> option Q)
            (parse_year : string -> option extended)
            (choice : nat -> nat -> list nat) (arith : Arithmetic)
            (df : DataFrame) (n : nat) (out : list Prepared.t)
            (p : Prepared.t),
        load_and_prepare_data parse_float parse_year choice arith df n
        = Ok out ->
        In p out ->
        Prepared.total_casualties p
        == Prepared.nkill p + Prepared.nwound p).
Proof.
  intros H.
  pose proof (H Sample.parse_float Sample.parse_year Sample.choice
                Sample.with_int64 Sample.huge_count 5%nat
                Sample.wrapped _ sample_wrapped (or_introl eq_refl))
    as Hsum.
  vm_compute in Hsum. discriminate Hsum.
Qed.

(** An infinite year that passes the test of line 32 makes line 45
    raise. *)
Lemma infinite_year_raises :
  load_and_prepare_data Sample.parse_float Sample.parse_year Sample.choice
                        Sample.exact Sample.infinite_year 10
  = Raise (OverflowError "cannot convert float infinity to integer").
Proof. reflexivity. Qed.

Lemma sample_records_same_but_casualties :
  Forall2 same_but_casualties
          (records Sample.incidents) (records Sample.incidents').
Proof. repeat constructor. Defined.

Lemma sample_counts_nonnegative :
  Forall (counts_nonnegative Sample.parse_float) (records Sample.incidents).
Proof.
  repeat constructor; intros q H; vm_compute in H;
    try discriminate H; injection H as <-; discriminate.
Defined.

Lemma sample_prepared :
  load_and_prepare_data Sample.parse_float Sample.parse_year Sample.choice
                        Sample.exact Sample.incidents 10
  = Ok Sample.prepared.
Proof. reflexivity. Defined.


Lemma casualty_cells_coerced_never_dropped_witness :
  result_map (map Prepared.ix)
             (load_and_prepare_data Sample.parse_float Sample.parse_year
                                    Sample.choice Sample.exact
                                    Sample.incidents 2)
  = result_map (map Prepared.ix)
               (load_and_prepare_data Sample.parse_float Sample.parse_year
                                      Sample.choice Sample.exact
                                      Sample.incidents' 2).
Proof.
  exact (proj1 (casualty_cells_coerced_never_dropped
                  Sample.parse_float Sample.parse_year Sample.choice
                  Sample.exact
                  Sample.incidents Sample.incidents' 2
                  eq_refl sample_records_same_but_casualties)).
Defined.


Lemma total_casualties_is_the_column_sum_witness :
  Prepared.total_casualties Sample.first_row
  = series_add Sample.exact (Prepared.nkill Sample.first_row)
               (Prepared.nwound Sample.first_row).
Proof.
  exact (proj1 (total_casualties_is_the_column_sum
                  Sample.parse_float Sample.parse_year Sample.choice
                  Sample.exact Sample.incidents 10
                  Sample.prepared Sample.first_row
                  sample_prepared (or_introl eq_refl))).
Defined.

Lemma prepared_years_after_1900_witness :
  Forall (fun p => 1900 < Prepared.iyear p) Sample.prepared.
Proof.
  apply Forall_forall.
  exact (proj1 (prepared_years_after_1900
                  Sample.parse_float Sample.parse_year Sample.choice
                  Sample.exact Sample.incidents 10
                  Sample.prepared sample_prepared)).
Defined.

Lemma sample_prepared_not_empty : Sample.prepared <> [].
Proof. discriminate. Defined.

Lemma legend_labels_are_the_distinct_target_types_witness :
  exists page,
    create_visualization Sample.palette20 Sample.palette256
                         Sample.show_Z Sample.show_Z Sample.show_Q
                         Sample.prepared = Ok page
    /\ NoDup (checkbox_labels page)
    /\ (forall t, In t (checkbox_labels page) <->
                  In t (map Prepared.targtype1_txt Sample.prepared))
    /\ NoDup (legend_labels page)
    /\ (forall t, In t (legend_labels page) <->
                  In t (map Prepared.targtype1_txt Sample.prepared)).
Proof.
  exact (legend_labels_are_the_distinct_target_types
           Sample.palette20 Sample.palette256
           Sample.show_Z Sample.show_Z Sample.show_Q
           Sample.prepared sample_prepared_not_empty).
Defined.

Lemma nonnegative_counts_are_preserved_witness :
  Forall (fun p => 0 <= Prepared.nkill p /\ 0 <= Prepared.nwound p)
         Sample.prepared.
Proof.
  apply Forall_forall.
  exact (proj1 (proj2 (nonnegative_counts_are_preserved
                         Sample.parse_float Sample.parse_year Sample.choice
                         Sample.exact
                         Sample.palette20 Sample.palette256
                         Sample.show_Z Sample.show_Z Sample.show_Q
                         Sample.show_Q Sample.show_Q
                         Sample.incidents 10 Sample.prepared
                         sample_counts_nonnegative sample_prepared))).
Defined.

Lemma empty_selection_leaves_axis_ranges_witness :
  exists p',
    callback Sample.exact Sample.show_Q Sample.show_Q Sample.page_unchecked
    = Some p'
    /\ source_data p' = Columns.empty
    /\ title_text p' = filtered_title Sample.show_Q 1998 2012
    /\ stats_text p'
       = filtered_stats Sample.show_Q Sample.show_Q 0 1998 2012 0 0
    /\ x_range p' = x_range Sample.page_unchecked
    /\ y_range p' = y_range Sample.page_unchecked.
Proof.
  exact (proj2 (proj2 (empty_selection_leaves_axis_ranges
                         Sample.exact Sample.show_Q Sample.show_Q
                         Sample.page_unchecked Sample.shown 1998 2012
                         eq_refl eq_refl))
               eq_refl).
Defined.

(** * Further properties *)

(** ** Minimum and maximum of a column *)

Lemma fold_max_bounds (t : list Q) (x : Q) :
  let m := fold_left (fun m y => if Qlt_bool m y then y else m) t x in
  x <= m /\ (forall y, In y t -> y <= m) /\ In m (x :: t).
Proof.
  revert x. induction t as [ | a t IH ]; intros x; simpl.
  - split; [ apply Qle_refl | ]. split; [ intros y [] | now left ].
  - destruct (Qlt_bool x a) eqn:E.
    + apply Qlt_bool_iff in E. destruct (IH a) as (H1 & H2 & H3).
      split; [ eapply Qle_trans; [ apply Qlt_le_weak, E | exact H1 ] | ].
      split.
      * intros y [<- | Hy]; [ exact H1 | now apply H2 ].
      * destruct H3 as [<- | H3]; auto.
    + assert (Hle : a <= x).
      { unfold Qlt_bool in E. apply negb_false_iff in E.
        now apply Qle_bool_iff. }
      destruct (IH x) as (H1 & H2 & H3).
      split; [ exact H1 | ]. split.
      * intros y [<- | Hy]; [ eapply Qle_trans; eauto | now apply H2 ].
      * destruct H3 as [<- | H3]; auto.
Qed.

Lemma fold_min_bounds (t : list Q) (x : Q) :
  let m := fold_left (fun m y => if Qlt_bool y m then y else m) t x in
  m <= x /\ (forall y, In y t -> m <= y) /\ In m (x :: t).
Proof.
  revert x. induction t as [ | a t IH ]; intros x; simpl.
  - split; [ apply Qle_refl | ]. split; [ intros y [] | now left ].
  - destruct (Qlt_bool a x) eqn:E.
    + apply Qlt_bool_iff in E. destruct (IH a) as (H1 & H2 & H3).
      split; [ eapply Qle_trans; [ exact H1 | apply Qlt_le_weak, E ] | ].
      split.
      * intros y [<- | Hy]; [ exact H1 | now apply H2 ].
      * destruct H3 as [<- | H3]; auto.
    + assert (Hle : x <= a).
      { unfold Qlt_bool in E. apply negb_false_iff in E.
        now apply Qle_bool_iff. }
      destruct (IH x) as (H1 & H2 & H3).
      split; [ exact H1 | ]. split.
      * intros y [<- | Hy]; [ eapply Qle_trans; eauto | now apply H2 ].
      * destruct H3 as [<- | H3]; auto.
Qed.

Lemma series_max_bounds (l : list Q) (m : Q) :
  series_max l = Some m -> In m l /\ forall y, In y l -> y <= m.
Proof.
  destruct l as [ | x t ]; simpl; [ discriminate | ].
  intros H. injection H as <-.
  destruct (fold_max_bounds t x) as (H1 & H2 & H3).
  split; [ exact H3 | ]. intros y [<- | Hy]; [ exact H1 | now apply H2 ].
Qed.

Lemma series_min_bounds (l : list Q) (m : Q) :
  series_min l = Some m -> In m l /\ forall y, In y l -> m <= y.
Proof.
  destruct l as [ | x t ]; simpl; [ discriminate | ].
  intros H. injection H as <-.
  destruct (fold_min_bounds t x) as (H1 & H2 & H3).
  split; [ exact H3 | ]. intros y [<- | Hy]; [ exact H1 | now apply H2 ].
Qed.

Lemma series_min_Some (l : list Q) :
  l <> [] -> exists m, series_min l = Some m.
Proof. destruct l; [ congruence | simpl; eauto ]. Qed.

Lemma series_max_Some (l : list Q) :
  l <> [] -> exists m, series_max l = Some m.
Proof. destruct l; [ congruence | simpl; eauto ]. Qed.

(** ** Positions and index labels *)

Lemma In_take_position {A : Type} (l : list A) (positions : list nat)
      (x : A) :
  In x (take l positions) ->
  exists i, In i positions /\ nth_error l i = Some x.
Proof.
  unfold take. rewrite in_flat_map. intros (i & Hi & Hx).
  exists i. split; [ exact Hi | ].
  destruct (nth_error l i) as [r | ]; simpl in Hx; [ | contradiction ].
  destruct Hx as [-> | []]. reflexivity.
Qed.

Lemma NoDup_take {A : Type} (l : list A) (positions : list nat) :
  NoDup l -> NoDup positions -> NoDup (take l positions).
Proof.
  intros Hl. induction 1 as [ | i positions Hnot Hnd IH ]; simpl.
  - constructor.
  - destruct (nth_error l i) as [r | ] eqn:E; simpl; [ | exact IH ].
    constructor; [ | exact IH ].
    intros Hin. apply In_take_position in Hin.
    destruct Hin as (j & Hj & Hnth). apply Hnot.
    assert (Hi : (i < length l)%nat)
      by (apply nth_error_Some; congruence).
    rewrite (proj1 (NoDup_nth_error l) Hl i j Hi); [ exact Hj | congruence ].
Qed.

Lemma NoDup_map_filter {A B : Type} (f : A -> B) (g : A -> bool)
      (l : list A) :
  NoDup (map f l) -> NoDup (map f (filter g l)).
Proof.
  induction l as [ | a l IH ]; simpl; intros H; [ constructor | ].
  inversion H as [ | ? ? Hnot Hnd ]; subst.
  destruct (g a); simpl; [ | now apply IH ].
  constructor; [ | now apply IH ].
  intros Hin. apply Hnot. apply in_map_iff in Hin.
  destruct Hin as (x & Hx & Hin). apply filter_In in Hin.
  apply in_map_iff. exists x. tauto.
Qed.

(** ** More on data preparation *)

Section MorePrepareFacts.

Variable parse_float : string -> option Q.
Variable parse_year : string -> option extended.
Variable choice : nat -> nat -> list nat.
Variable arith : Arithmetic.

Lemma retained_nil_iff (df : DataFrame) :
  retained parse_float parse_year arith df = [] <->
  filter (passes_filters parse_year) (records df) = [].
Proof.
  pose proof (ix_retained parse_float parse_year arith df) as H.
  split; intros E.
  - rewrite E in H. simpl in H. symmetry in H.
    now apply map_eq_nil in H.
  - rewrite E in H. simpl in H. now apply map_eq_nil in H.
Qed.

(** X1.  With the four columns, a positive sample limit, at least one
    retained row and no infinite year among the retained rows,
    [load_and_prepare_data] returns: the dataset has as many rows as the
    smaller of the limit and the number of retained rows, all of them
    retained rows, and it is the retained rows themselves when they are
    within the limit. *)
Theorem load_returns_min_of_limit_and_retained (df : DataFrame) (n : nat) :
  first_missing df = None ->
  (0 < n)%nat ->
  retained parse_float parse_year arith df <> [] ->
  forallb has_finite_year (retained parse_float parse_year arith df)
  = true ->
  ((n < length (retained parse_float parse_year arith df))%nat ->
   valid_choice (length (retained parse_float parse_year arith df)) n
                (choice (length (retained parse_float parse_year arith df))
                        n)) ->
  exists out,
    load_and_prepare_data parse_float parse_year choice arith df n = Ok out
    /\ length out
       = Nat.min n (length (retained parse_float parse_year arith df))
    /\ (forall p, In p out ->
                  exists q,
                    In q (retained parse_float parse_year arith df)
                    /\ finite_row q = Some p)
    /\ ((length (retained parse_float parse_year arith df) <= n)%nat ->
        out = finite_rows (retained parse_float parse_year arith df)).
Proof.
  intros Hcols Hpos Hne Hfin Hdraw.
  destruct (Nat.lt_ge_cases
              n (length (retained parse_float parse_year arith df)))
    as [Hlt | Hge].
  - destruct (load_samples_limit_rows parse_float parse_year choice arith
                                      df n Hcols Hpos Hlt Hfin (Hdraw Hlt))
      as (out & Hload & Hlen & Hin & _).
    exists out. split; [ exact Hload | ].
    split; [ lia | ]. split; [ exact Hin | lia ].
  - exists (finite_rows (retained parse_float parse_year arith df)).
    split; [ now apply load_returns_all_within_limit | ].
    split; [ rewrite (length_finite_rows _ Hfin); lia | ].
    split; [ intros p Hp; now apply In_finite_rows | auto ].
Qed.

(** X2.  When the index labels of the file are pairwise distinct, so are
    those of the prepared dataset: cleaning keeps a record at most once and
    the sample is drawn without replacement. *)
Theorem prepared_index_labels_distinct
        (df : DataFrame) (n : nat) (out : list Prepared.t) :
  NoDup (map Raw.ix (records df)) ->
  ((n < length (retained parse_float parse_year arith df))%nat ->
   valid_choice (length (retained parse_float parse_year arith df)) n
                (choice (length (retained parse_float parse_year arith df))
                        n)) ->
  load_and_prepare_data parse_float parse_year choice arith df n = Ok out ->
  NoDup (map Prepared.ix out).
Proof.
  intros Hnd Hdraw Hload.
  apply load_Ok in Hload. destruct Hload as (_ & -> & _ & Hfin).
  rewrite (ix_finite_rows _ Hfin).
  assert (Hret : NoDup (map Retained.ix
                            (retained parse_float parse_year arith df))).
  { rewrite ix_retained. now apply NoDup_map_filter. }
  rewrite map_sample_if_large.
  destruct (Nat.lt_ge_cases
              n (length (retained parse_float parse_year arith df)))
    as [Hlt | Hge].
  - rewrite sampling_over_limit by now rewrite length_map.
    rewrite length_map. apply NoDup_take; [ exact Hret | ].
    now destruct (Hdraw Hlt) as (_ & H & _).
  - rewrite no_sampling_within_limit by now rewrite length_map.
    exact Hret.
Qed.

(** X3.  [load_and_prepare_data] raises the conversion error of line 45
    exactly when the four columns are present and the dataset it would
    return is empty: no record passes the year and target tests, or the
    sample limit is 0. *)
Theorem load_raises_exactly_on_empty_result (df : DataFrame) (n : nat) :
  ((n < length (retained parse_float parse_year arith df))%nat ->
   valid_choice (length (retained parse_float parse_year arith df)) n
                (choice (length (retained parse_float parse_year arith df))
                        n)) ->
  load_and_prepare_data parse_float parse_year choice arith df n
  = Raise (ValueError "cannot convert float NaN to integer")
  <-> first_missing df = None
      /\ (filter (passes_filters parse_year) (records df) = []
          \/ n = 0%nat).
Proof.
  intros Hdraw. rewrite <- retained_nil_iff. split.
  - intros Hload. destruct (first_missing df) as [col | ] eqn:E.
    + erewrite load_column_missing in Hload by exact E.
      exfalso. apply (nan_message_is_not_missing_column col).
      now symmetry.
    + split; [ reflexivity | ].
      rewrite load_columns_present in Hload by exact E.
      destruct (Nat.lt_ge_cases
                  n (length (retained parse_float parse_year arith df)))
        as [Hlt | Hge].
      * right. destruct (Hdraw Hlt) as (Hlen & _ & Hrange).
        rewrite sampling_over_limit in Hload by exact Hlt.
        pose proof (length_take
                      (retained parse_float parse_year arith df) _ Hrange)
          as Ht.
        destruct (take (retained parse_float parse_year arith df)
                       (choice
                          (length
                             (retained parse_float parse_year arith df))
                          n)) as [ | q l ];
          [ simpl in Ht; lia | ].
        destruct (forallb has_finite_year (q :: l)); discriminate.
      * left. rewrite no_sampling_within_limit in Hload by exact Hge.
        destruct (retained parse_float parse_year arith df) as [ | q l ];
          [ reflexivity | ].
        destruct (forallb has_finite_year (q :: l)); discriminate.
  - intros (Hcols & Hempty).
    rewrite load_columns_present by exact Hcols.
    destruct (retained parse_float parse_year arith df) as [ | p l ] eqn:E.
    + rewrite no_sampling_within_limit by (simpl; lia). reflexivity.
    + destruct Hempty as [Hnil | ->]; [ discriminate | ].
      assert (Hlt : (0 < length (p :: l))%nat) by (simpl; lia).
      destruct (Hdraw Hlt) as (Hlen & _).
      rewrite sampling_over_limit by exact Hlt.
      apply length_zero_iff_nil in Hlen. rewrite Hlen. reflexivity.
Qed.

Lemma In_derive_size (l : list Kept.t) (q : Retained.t) :
  In q (derive arith l) ->
  In (Retained.base q) l
  /\ Retained.circle_size q
     = size_of arith (series_max (map (casualties arith) l))
               (casualties arith (Retained.base q)).
Proof.
  unfold derive. rewrite in_map_iff. intros (i & <- & Hi). simpl. auto.
Qed.

(** X4.  When every retained row has no casualty at all, every circle of
    the prepared dataset has the size 10: the largest total is not
    positive, and line 37 takes its constant. *)
Theorem circles_without_casualties_have_size_10
        (df : DataFrame) (n : nat) (out : list Prepared.t) :
  load_and_prepare_data parse_float parse_year choice arith df n = Ok out ->
  (forall q, In q (retained parse_float parse_year arith df) ->
             Retained.total_casualties q == 0) ->
  forall p, In p out -> Prepared.circle_size p = 10.
Proof.
  intros Hload Hzero p Hp.
  destruct (load_Ok_retained parse_float parse_year choice arith
                             df n out p Hload Hp) as (q & Hq & Hrow).
  destruct (finite_row_Some q p Hrow) as (_ & _ & _ & _ & _ & _ & ->).
  destruct (In_derive_size _ _ Hq) as (_ & ->).
  unfold size_of.
  destruct (series_max (map (casualties arith)
                            (clean parse_float parse_year df)))
    as [m | ] eqn:E; [ | reflexivity ].
  apply series_max_bounds in E. destruct E as (Hm & _).
  apply in_map_iff in Hm. destruct Hm as (i & <- & Hi).
  destruct (derive_In arith _ i Hi) as (q' & Hq' & Hb).
  pose proof (Hzero q' Hq') as Hz.
  destruct (In_derive arith _ _ Hq') as (_ & Ht). rewrite Ht, Hb in Hz.
  destruct (Qlt_bool 0 (casualties arith i)) eqn:L; [ | reflexivity ].
  apply Qlt_bool_iff in L. lra.
Qed.

End MorePrepareFacts.

(** ** The colour mapping *)

Lemma dict_get_combine (ks vs : list string) (k : nat) (t c : string) :
  NoDup ks ->
  nth_error ks k = Some t ->
  nth_error vs k = Some c ->
  dict_get (combine ks vs) t = Some c.
Proof.
  revert vs k. induction ks as [ | a ks IH ]; intros vs k Hnd Hk Hv.
  - destruct k; discriminate.
  - destruct vs as [ | v vs ]; [ destruct k; discriminate | ].
    inversion Hnd as [ | ? ? Hnot Hnd' ]; subst.
    destruct k as [ | k ]; simpl in *.
    + injection Hk as ->. injection Hv as ->.
      now rewrite String.eqb_refl.
    + assert (Hne : a <> t).
      { intros ->. apply Hnot. exact (nth_error_In _ _ Hk). }
      apply String.eqb_neq in Hne. rewrite Hne. eauto.
Qed.

Section ColorFacts.

Variables Category20_20 Turbo256 : list string.

Lemma targets_NoDup (df : list Prepared.t) :
  NoDup (snd (create_color_mapping Category20_20 Turbo256 df)).
Proof. simpl. apply NoDup_sorted, NoDup_unique. Qed.

Lemma targets_In (df : list Prepared.t) (t : string) :
  In t (snd (create_color_mapping Category20_20 Turbo256 df)) <->
  In t (map Prepared.targtype1_txt df).
Proof. simpl. now rewrite In_sorted, In_unique. Qed.

(** The label at position [k] is mapped to the colour of position [k]. *)
Lemma color_of_kth_label (df : list Prepared.t) (k : nat) (t : string) :
  length Category20_20 = 20%nat ->
  nth_error (snd (create_color_mapping Category20_20 Turbo256 df)) k
  = Some t ->
  dict_get (fst (create_color_mapping Category20_20 Turbo256 df)) t
  = Some (palette_color
            Category20_20 Turbo256
            (length (snd (create_color_mapping Category20_20 Turbo256 df)))
            k).
Proof.
  intros H20 Hk. pose proof (targets_NoDup df) as Hnd.
  unfold create_color_mapping in *. simpl in *.
  set (ut := sorted String.leb (unique (map Prepared.targtype1_txt df)))
    in *.
  assert (Hlt : (k < length ut)%nat)
    by (apply nth_error_Some; congruence).
  apply (dict_get_combine ut _ k t _ Hnd Hk).
  unfold palette_color. destruct (Nat.leb_spec (length ut) 20).
  - rewrite nth_error_firstn.
    destruct (Nat.ltb_spec k (length ut)); [ | lia ].
    apply nth_error_nth'. lia.
  - rewrite nth_error_map, nth_error_seq.
    destruct (Nat.ltb_spec k (length ut)); [ | lia ]. reflexivity.
Qed.

Lemma palette_color_In (n k : nat) :
  length Category20_20 = 20%nat ->
  length Turbo256 = 256%nat ->
  (k < n)%nat ->
  In (palette_color Category20_20 Turbo256 n k) Category20_20
  \/ In (palette_color Category20_20 Turbo256 n k) Turbo256.
Proof.
  intros H20 H256 Hk. unfold palette_color.
  destruct (Nat.leb_spec n 20).
  - left. apply nth_In. lia.
  - right. apply nth_In. now apply turbo_index_in_range.
Qed.

(** X5.  With the 20 and the 256 colours of the two palettes, every row of
    the frame gets a colour, and that colour is one of a palette: the
    [color] column has no missing value. *)
Theorem every_row_gets_a_palette_colour
        (df : list Prepared.t) (r : Shown.t) :
  length Category20_20 = 20%nat ->
  length Turbo256 = 256%nat ->
  In r (with_color (fst (create_color_mapping Category20_20 Turbo256 df))
                   df) ->
  exists c,
    Shown.color r = Some c
    /\ (In c Category20_20 \/ In c Turbo256).
Proof.
  intros H20 H256 Hr. unfold with_color in Hr. apply in_map_iff in Hr.
  destruct Hr as (p & <- & Hp). cbn [Shown.color].
  assert (Ht : In (Prepared.targtype1_txt p)
                  (snd (create_color_mapping Category20_20 Turbo256 df)))
    by (apply targets_In; now apply in_map).
  apply In_nth_error in Ht. destruct Ht as (k & Hk).
  rewrite (color_of_kth_label df k _ H20 Hk).
  eexists. split; [ reflexivity | ].
  apply palette_color_In; try assumption.
  apply nth_error_Some. congruence.
Qed.

(** X6.  With at most 256 distinct target types and palettes of pairwise
    distinct colours, two rows of different target types get different
    colours. *)
Theorem different_targets_get_different_colours
        (df : list Prepared.t) (p1 p2 : Prepared.t) :
  length Category20_20 = 20%nat ->
  length Turbo256 = 256%nat ->
  NoDup Category20_20 ->
  NoDup Turbo256 ->
  (length (snd (create_color_mapping Category20_20 Turbo256 df))
   <= 256)%nat ->
  In p1 df ->
  In p2 df ->
  Prepared.targtype1_txt p1 <> Prepared.targtype1_txt p2 ->
  dict_get (fst (create_color_mapping Category20_20 Turbo256 df))
           (Prepared.targtype1_txt p1)
  <> dict_get (fst (create_color_mapping Category20_20 Turbo256 df))
              (Prepared.targtype1_txt p2).
Proof.
  intros H20 H256 Hnd20 Hnd256 Hn Hp1 Hp2 Hne.
  assert (Ht1 : In (Prepared.targtype1_txt p1)
                   (snd (create_color_mapping Category20_20 Turbo256 df)))
    by (apply targets_In; now apply in_map).
  assert (Ht2 : In (Prepared.targtype1_txt p2)
                   (snd (create_color_mapping Category20_20 Turbo256 df)))
    by (apply targets_In; now apply in_map).
  apply In_nth_error in Ht1. destruct Ht1 as (k1 & Hk1).
  apply In_nth_error in Ht2. destruct Ht2 as (k2 & Hk2).
  rewrite (color_of_kth_label df k1 _ H20 Hk1).
  rewrite (color_of_kth_label df k2 _ H20 Hk2).
  assert (Hl1 : (k1 < length (snd (create_color_mapping
                                     Category20_20 Turbo256 df)))%nat)
    by (apply nth_error_Some; congruence).
  assert (Hl2 : (k2 < length (snd (create_color_mapping
                                     Category20_20 Turbo256 df)))%nat)
    by (apply nth_error_Some; congruence).
  assert (Hk : k1 <> k2) by (intros ->; congruence).
  set (n := length (snd (create_color_mapping Category20_20 Turbo256 df)))
    in *.
  intros Heq. injection Heq as Heq. unfold palette_color in Heq.
  destruct (Nat.leb_spec n 20).
  - apply Hk.
    apply (proj1 (NoDup_nth Category20_20 EmptyString) Hnd20); try lia.
    exact Heq.
  - pose proof (turbo_index_in_range Turbo256 n k1 H256 H Hl1) as B1.
    pose proof (turbo_index_in_range Turbo256 n k2 H256 H Hl2) as B2.
    apply (proj1 (NoDup_nth Turbo256 EmptyString) Hnd256) in Heq;
      try assumption.
    rewrite H256 in Heq.
    assert (Hstep : (1 <= 256 / n)%nat)
      by (apply Nat.div_le_lower_bound; lia).
    apply Hk. nia.
Qed.

(** X7.  With more than 256 distinct target types the step of line 61 is
    0, and every row gets the same colour: the first of [Turbo256]. *)
Theorem beyond_256_targets_one_colour
        (df : list Prepared.t) (p : Prepared.t) :
  length Category20_20 = 20%nat ->
  length Turbo256 = 256%nat ->
  (256 < length (snd (create_color_mapping Category20_20 Turbo256 df)))%nat ->
  In p df ->
  dict_get (fst (create_color_mapping Category20_20 Turbo256 df))
           (Prepared.targtype1_txt p)
  = Some (nth 0 Turbo256 EmptyString).
Proof.
  intros H20 H256 Hn Hp.
  assert (Ht : In (Prepared.targtype1_txt p)
                  (snd (create_color_mapping Category20_20 Turbo256 df)))
    by (apply targets_In; now apply in_map).
  apply In_nth_error in Ht. destruct Ht as (k & Hk).
  rewrite (color_of_kth_label df k _ H20 Hk). unfold palette_color.
  set (n := length (snd (create_color_mapping Category20_20 Turbo256 df)))
    in *.
  destruct (Nat.leb_spec n 20); [ lia | ].
  rewrite H256, Nat.div_small by lia. now rewrite Nat.mul_0_r.
Qed.

End ColorFacts.

(** ** Sorted labels *)

Lemma HdRel_insert_sorted {A : Type} (le : A -> A -> bool) (a x : A)
      (l : list A) :
  le a x = true ->
  HdRel (fun u v => le u v = true) a l ->
  HdRel (fun u v => le u v = true) a (insert_sorted le x l).
Proof.
  intros Hax Hl. destruct l as [ | y t ]; simpl.
  - now constructor.
  - destruct (le x y); constructor; [ exact Hax | ].
    now apply HdRel_inv in Hl.
Qed.

Lemma Sorted_insert_sorted {A : Type} (le : A -> A -> bool) (x : A)
      (l : list A) :
  (forall u v, le u v = false -> le v u = true) ->
  Sorted (fun u v => le u v = true) l ->
  Sorted (fun u v => le u v = true) (insert_sorted le x l).
Proof.
  intros Htotal. induction 1 as [ | y t Ht IH Hhd ]; simpl.
  - repeat constructor.
  - destruct (le x y) eqn:E.
    + constructor; [ now constructor | now constructor ].
    + constructor; [ exact IH | ].
      apply HdRel_insert_sorted; [ now apply Htotal | exact Hhd ].
Qed.

Lemma Sorted_sorted {A : Type} (le : A -> A -> bool) (l : list A) :
  (forall u v, le u v = false -> le v u = true) ->
  Sorted (fun u v => le u v = true) (sorted le l).
Proof.
  intros Htotal. induction l as [ | x l IH ]; simpl.
  - constructor.
  - now apply Sorted_insert_sorted.
Qed.

Lemma string_leb_total (u v : string) :
  String.leb u v = false -> String.leb v u = true.
Proof.
  intros H. destruct (String.leb_total u v) as [E | E]; congruence.
Qed.

(** The labels at all positions of a list are the list. *)
Lemma labels_at_all_positions (suf pre : list string) :
  flat_map (fun i => match nth_error (pre ++ suf) i with
                     | Some s => [s]
                     | None => []
                     end) (seq (length pre) (length suf))
  = suf.
Proof.
  revert pre. induction suf as [ | x suf IH ]; intros pre; simpl.
  - reflexivity.
  - rewrite nth_error_app2, Nat.sub_diag by lia. simpl. f_equal.
    specialize (IH (pre ++ [x])).
    rewrite <- app_assoc, length_app in IH. simpl in IH.
    now rewrite Nat.add_1_r in IH.
Qed.

Lemma selected_labels_all (p : Page) :
  checkbox_active p = seq 0 (length (checkbox_labels p)) ->
  selected_labels p = checkbox_labels p.
Proof.
  intros H. unfold selected_labels. rewrite H.
  exact (labels_at_all_positions (checkbox_labels p) []).
Qed.

Lemma selected_labels_incl (p : Page) (t : string) :
  In t (selected_labels p) -> In t (checkbox_labels p).
Proof.
  unfold selected_labels. rewrite in_flat_map. intros (i & _ & Hi).
  destruct (nth_error (checkbox_labels p) i) as [s | ] eqn:E;
    simpl in Hi; [ | contradiction ].
  destruct Hi as [<- | []]. exact (nth_error_In _ _ E).
Qed.

(** ** Truncation of whole and of positive numbers *)

Lemma int_of_whole (q : Q) (z : Z) :
  q == inject_Z z -> int_of_float (Some (Finite q)) = Ok z.
Proof.
  unfold Qeq, inject_Z. simpl. intros H. f_equal.
  rewrite Z.mul_1_r in H. rewrite H. apply Z.quot_mul. discriminate.
Qed.

Lemma int_of_float_lower (q : Q) (b z : Z) :
  (0 <= b)%Z ->
  inject_Z b <= q ->
  int_of_float (Some (Finite q)) = Ok z ->
  (b <= z)%Z.
Proof.
  unfold Qle, inject_Z. simpl. intros Hb H E. injection E as <-.
  rewrite Z.mul_1_r in H.
  assert (Hn : (0 <= Qnum q)%Z) by nia.
  rewrite Z.quot_div_nonneg by lia.
  apply Z.div_le_lower_bound; lia.
Qed.

Lemma int_of_float_monotone (q r : Q) (z w : Z) :
  0 <= q ->
  q <= r ->
  int_of_float (Some (Finite q)) = Ok z ->
  int_of_float (Some (Finite r)) = Ok w ->
  (z <= w)%Z.
Proof.
  unfold Qle. simpl. intros H0 H E1 E2.
  injection E1 as <-. injection E2 as <-.
  rewrite Z.mul_1_r in H0.
  assert (Hr : (0 <= Qnum r)%Z) by nia.
  rewrite !Z.quot_div_nonneg by lia.
  apply Z.div_le_lower_bound; [ lia | ].
  pose proof (Z.mul_div_le (Qnum q) (Zpos (Qden q)) eq_refl) as Hfloor.
  assert (Hq : (0 <= Qnum q / Zpos (Qden q))%Z)
    by (apply Z.div_pos; lia).
  nia.
Qed.

(** ** More on the page and on the callback *)

Lemma filter_all {A : Type} (f : A -> bool) (l : list A) :
  (forall x, In x l -> f x = true) -> filter f l = l.
Proof.
  induction l as [ | a l IH ]; simpl; intros H; [ reflexivity | ].
  rewrite (H a) by now left. f_equal. apply IH. intros x Hx. apply H.
  now right.
Qed.

Lemma rescale_twice (arith : Arithmetic) (vals : list Q) (r : Range) :
  rescale arith vals (rescale arith vals r) = rescale arith vals r.
Proof.
  unfold rescale.
  destruct (series_min vals), (series_max vals); reflexivity.
Qed.

Section MorePageFacts.

Variable parse_float : string -> option Q.
Variable parse_year : string -> option extended.
Variable choice : nat -> nat -> list nat.
Variable arith : Arithmetic.
Variables Category20_20 Turbo256 : list string.
Variable format_int_grouped : Z -> string.
Variable format_int : Z -> string.
Variable format_float_grouped : Q -> string.
Variable number_to_string : Q -> string.
Variable toLocaleString : Q -> string.

Lemma create_visualization_slider (df : list Prepared.t) (page : Page) :
  create_visualization Category20_20 Turbo256 format_int_grouped
                       format_int format_float_grouped df = Ok page ->
  int_of_float (option_map Finite (series_min (map Prepared.iyear df)))
  = Ok (slider_start page)
  /\ int_of_float (option_map Finite (series_max (map Prepared.iyear df)))
     = Ok (slider_end page)
  /\ slider_value page
     = (inject_Z (slider_start page), inject_Z (slider_end page)).
Proof.
  unfold create_visualization, create_color_mapping. simpl.
  destruct (int_of_float
              (option_map Finite (series_min (map Prepared.iyear df))));
    [ | discriminate ].
  destruct (int_of_float
              (option_map Finite (series_max (map Prepared.iyear df))));
    [ | discriminate ].
  intros H. injection H as <-. simpl. repeat split.
Qed.

(** X8.  The labels of the check boxes are in ascending order (each is
    at most the next one, by code point), and on the page
    [create_visualization] builds every box is checked: the selected
    categories are all the labels. *)
Theorem checkbox_labels_ascending_and_all_checked
        (df : list Prepared.t) (page : Page) :
  create_visualization Category20_20 Turbo256 format_int_grouped
                       format_int format_float_grouped df = Ok page ->
  Sorted (fun a b => String.leb a b = true) (checkbox_labels page)
  /\ selected_labels page = checkbox_labels page.
Proof.
  intros Hpage.
  destruct (create_visualization_fields _ _ _ _ _ _ _ Hpage)
    as (_ & _ & _ & Hlabels & Hactive).
  split.
  - rewrite Hlabels. apply Sorted_sorted, string_leb_total.
  - now apply selected_labels_all.
Qed.

(** X9.  [create_visualization] raises, with the conversion error of
    line 126, exactly on a frame without rows; on every other frame it
    returns a page. *)
Theorem visualization_raises_exactly_on_empty_frame (df : list Prepared.t) :
  (create_visualization Category20_20 Turbo256 format_int_grouped
                        format_int format_float_grouped df
   = Raise (ValueError "cannot convert float NaN to integer")
   <-> df = [])
  /\ ((exists page,
          create_visualization Category20_20 Turbo256 format_int_grouped
                               format_int format_float_grouped df = Ok page)
      <-> df <> []).
Proof.
  split; split.
  - intros H. destruct df as [ | p df ]; [ reflexivity | ].
    destruct (create_visualization_Ok Category20_20 Turbo256
                format_int_grouped format_int format_float_grouped
                (p :: df)) as (page & Hpage); [ discriminate | ].
    rewrite Hpage in H. discriminate.
  - intros ->. reflexivity.
  - intros (page & Hpage) ->. discriminate.
  - apply create_visualization_Ok.
Qed.

(** X10.  The two steps of the main program compose: on the dataset
    [load_and_prepare_data] returns, [create_visualization] returns a page;
    the page shows one point per row of the dataset, and the bounds of its
    year slider are ordered and not before 1900. *)
Theorem prepared_dataset_is_visualized
        (df : DataFrame) (n : nat) (out : list Prepared.t) :
  load_and_prepare_data parse_float parse_year choice arith df n = Ok out ->
  exists page,
    create_visualization Category20_20 Turbo256 format_int_grouped
                         format_int format_float_grouped out = Ok page
    /\ length (Columns.nkill (source_data page)) = length out
    /\ length (Columns.nwound (source_data page)) = length out
    /\ (1900 <= slider_start page <= slider_end page)%Z.
Proof.
  intros Hload.
  assert (Hyears : forall y, In y (map Prepared.iyear out) -> 1900 < y).
  { intros y Hy. apply in_map_iff in Hy. destruct Hy as (p & <- & Hp).
    now destruct (In_prepared parse_float parse_year choice arith
                              df n out p Hload Hp) as (_ & H & _). }
  pose proof (load_Ok_not_empty parse_float parse_year choice arith
                                df n out Hload) as Hne.
  destruct (create_visualization_Ok Category20_20 Turbo256
              format_int_grouped format_int format_float_grouped out Hne)
    as (page & Hpage).
  exists page. split; [ exact Hpage | ].
  destruct (create_visualization_fields _ _ _ _ _ _ _ Hpage)
    as (Hsource & _).
  destruct (create_visualization_slider _ _ Hpage) as (Hmin & Hmax & _).
  rewrite Hsource. simpl. unfold with_color. rewrite !length_map.
  split; [ reflexivity | ]. split; [ reflexivity | ].
  destruct (series_min (map Prepared.iyear out)) as [lo | ] eqn:Elo;
    [ | discriminate ].
  destruct (series_max (map Prepared.iyear out)) as [hi | ] eqn:Ehi;
    [ | discriminate ].
  destruct (series_min_bounds _ _ Elo) as (Hlo_in & Hlo).
  destruct (series_max_bounds _ _ Ehi) as (Hhi_in & Hhi).
  pose proof (Hyears lo Hlo_in) as Hlo1900.
  split.
  - apply (int_of_float_lower lo); [ lia | | exact Hmin ].
    apply Qlt_le_weak. exact Hlo1900.
  - apply (int_of_float_monotone lo hi); try assumption.
    + apply Qlt_le_weak. eapply Qlt_trans; [ | exact Hlo1900 ].
      reflexivity.
    + now apply Hhi.
Qed.

(** X11.  When the years of the frame are whole numbers, pressing the
    reset button and running the filter callback shows the whole dataset
    again, whatever the slider and the check boxes selected before. *)
Theorem reset_then_filter_shows_everything
        (df : list Prepared.t) (page q : Page) :
  create_visualization Category20_20 Turbo256 format_int_grouped
                       format_int format_float_grouped df = Ok page ->
  Forall whole_year df ->
  same_document page q ->
  exists q',
    callback arith number_to_string toLocaleString (reset_click q) = Some q'
    /\ source_data q' = original_data page.
Proof.
  intros Hpage Hwhole (Horig & _ & Hstart & Hend & Hlabels).
  destruct (create_visualization_fields _ _ _ _ _ _ _ Hpage)
    as (_ & Hfull & _ & Hsorted & _).
  destruct (create_visualization_slider _ _ Hpage) as (Hmin & Hmax & _).
  set (full := with_color
                 (fst (create_color_mapping Category20_20 Turbo256 df)) df)
    in *.
  assert (Hq : original_data (reset_click q) = to_dict_list full)
    by (simpl; congruence).
  rewrite (callback_spec arith number_to_string toLocaleString (reset_click q)
                         full _ _ Hq eq_refl).
  eexists. split; [ reflexivity | ]. simpl.
  rewrite Hfull. f_equal. unfold filter_spec. apply filter_all.
  intros r Hr. unfold full, with_color in Hr. apply in_map_iff in Hr.
  destruct Hr as (p & <- & Hp). apply in_selection_iff. simpl.
  rewrite Forall_forall in Hwhole. destruct (Hwhole p Hp) as (z & Hz).
  assert (Hy : In (Prepared.iyear p) (map Prepared.iyear df))
    by now apply in_map.
  destruct (series_min (map Prepared.iyear df)) as [lo | ] eqn:Elo;
    [ | discriminate ].
  destruct (series_max (map Prepared.iyear df)) as [hi | ] eqn:Ehi;
    [ | discriminate ].
  destruct (series_min_bounds _ _ Elo) as (Hlo_in & Hlo).
  destruct (series_max_bounds _ _ Ehi) as (Hhi_in & Hhi).
  apply in_map_iff in Hlo_in. destruct Hlo_in as (plo & Hplo & Hlo_in).
  apply in_map_iff in Hhi_in. destruct Hhi_in as (phi & Hphi & Hhi_in).
  destruct (Hwhole plo Hlo_in) as (zlo & Hzlo).
  destruct (Hwhole phi Hhi_in) as (zhi & Hzhi).
  rewrite Hplo in Hzlo. rewrite Hphi in Hzhi.
  cbn [option_map] in Hmin, Hmax.
  rewrite (int_of_whole lo zlo Hzlo) in Hmin. injection Hmin as Hmin.
  rewrite (int_of_whole hi zhi Hzhi) in Hmax. injection Hmax as Hmax.
  rewrite Hstart, Hend, <- Hmin, <- Hmax, <- Hzlo, <- Hzhi.
  split; [ now apply Hlo | ]. split; [ now apply Hhi | ].
  rewrite selected_labels_all by reflexivity. simpl.
  rewrite Hlabels, Hsorted, In_sorted, In_unique. now apply in_map.
Qed.

(** X12.  The filter callback is idempotent: run again without a change
    of the slider or of the check boxes, it displays the same dataset, the
    same title, the same statistics and the same axis ranges; only the
    count of [change] events grows. *)
Theorem callback_is_idempotent (p p1 : Page) (full : list Shown.t) :
  original_data p = to_dict_list full ->
  callback arith number_to_string toLocaleString p = Some p1 ->
  exists p2,
    callback arith number_to_string toLocaleString p1 = Some p2
    /\ displayed p2 = displayed p1
    /\ source_changes p2 = S (source_changes p1).
Proof.
  intros Horig Hcall.
  destruct (slider_value p) as [start end_] eqn:Hslider.
  rewrite (callback_spec arith number_to_string toLocaleString p full
                         start end_ Horig Hslider) in Hcall.
  injection Hcall as <-.
  match goal with
  | |- exists p2, callback _ _ _ ?p1 = _ /\ _ =>
      assert (Horig1 : original_data p1 = to_dict_list full)
        by exact Horig;
      assert (Hslider1 : slider_value p1 = (start, end_))
        by exact Hslider;
      rewrite (callback_spec arith number_to_string toLocaleString p1 full
                             start end_ Horig1 Hslider1)
  end.
  eexists. split; [ reflexivity | ]. split; [ | reflexivity ].
  unfold displayed, selected_labels. simpl.
  destruct (0 <? length (filter_spec start end_ _ full))%nat;
    now rewrite ?rescale_twice.
Qed.

(** X13.  In an arithmetic whose subtraction of 1 does not go up and
    whose addition of 1 does not go down, as the rounded ones of doubles,
    every point displayed after the callback lies within the axis ranges:
    the x range holds every displayed kill count and the y range every
    displayed wound count. *)
Theorem displayed_points_lie_within_the_ranges
        (p p' : Page) (full : list Shown.t) :
  (forall v, float_sub arith v 1 <= v) ->
  (forall v, v <= float_add arith v 1) ->
  original_data p = to_dict_list full ->
  callback arith number_to_string toLocaleString p = Some p' ->
  (forall x, In x (Columns.nkill (source_data p')) -> within (x_range p') x)
  /\ (forall y, In y (Columns.nwound (source_data p')) ->
                within (y_range p') y).
Proof.
  intros Hsub Hadd Horig Hcall.
  destruct (slider_value p) as [start end_] eqn:Hslider.
  rewrite (callback_spec arith number_to_string toLocaleString p full
                         start end_ Horig Hslider) in Hcall.
  injection Hcall as <-. simpl.
  set (kept := filter_spec start end_ (selected_labels p) full).
  assert (Hside :
            forall (f : Shown.t -> Q) (r : Range) (v : Q),
              In v (map f kept) ->
              within (if (0 <? length kept)%nat
                      then rescale arith (map f kept) r else r) v).
  { intros f r v Hv.
    assert (Hlen : (0 < length kept)%nat).
    { destruct kept; [ contradiction | simpl; lia ]. }
    apply Nat.ltb_lt in Hlen. rewrite Hlen. unfold rescale, within.
    destruct (series_min (map f kept)) as [lo | ] eqn:Elo.
    - destruct (series_max (map f kept)) as [hi | ] eqn:Ehi.
      + destruct (series_min_bounds _ _ Elo) as (_ & Hlo).
        destruct (series_max_bounds _ _ Ehi) as (_ & Hhi).
        specialize (Hlo v Hv). specialize (Hhi v Hv). simpl.
        eexists. eexists. split; [ reflexivity | ].
        split; [ reflexivity | ]. split.
        * exact (Qle_trans _ _ _ (Hsub lo) Hlo).
        * exact (Qle_trans _ _ _ Hhi (Hadd hi)).
      + apply series_max_None in Ehi. rewrite Ehi in Hv. contradiction.
    - apply series_min_None in Elo. rewrite Elo in Hv. contradiction. }
  split; intros v Hv; now apply Hside.
Qed.

(** X14.  After the callback, every entry of the legend is a checked
    category, a label of a check box, and the target type of a row of the
    full dataset whose year lies in the slider's range. *)
Theorem filtered_legend_within_checked_categories
        (p p' : Page) (full : list Shown.t) (start end_ : Q) (t : string) :
  original_data p = to_dict_list full ->
  slider_value p = (start, end_) ->
  callback arith number_to_string toLocaleString p = Some p' ->
  In t (legend_labels p') ->
  In t (selected_labels p)
  /\ In t (checkbox_labels p)
  /\ exists r,
      In r full
      /\ Prepared.targtype1_txt (Shown.row r) = t
      /\ start <= Prepared.iyear (Shown.row r) <= end_.
Proof.
  intros Horig Hslider Hcall Ht.
  rewrite (callback_spec arith number_to_string toLocaleString p full
                         start end_ Horig Hslider) in Hcall.
  injection Hcall as <-. unfold legend_labels in Ht. simpl in Ht.
  destruct (String.eqb (legend_field p) "targtype1_txt");
    [ | contradiction ].
  apply (proj1 (In_unique _ _)) in Ht. apply in_map_iff in Ht.
  destruct Ht as (r & <- & Hr). unfold filter_spec in Hr.
  apply filter_In in Hr. destruct Hr as (Hr & Hsel).
  apply in_selection_iff in Hsel. destruct Hsel as (H1 & H2 & H3).
  split; [ exact H3 | ].
  split; [ now apply selected_labels_incl | ].
  exists r. auto.
Qed.

End MorePageFacts.

(** ** Counting by groups *)

Lemma list_sum_map_add {R : Type} (f g : R -> nat) (l : list R) :
  list_sum (map (fun r => f r + g r)%nat l)
  = (list_sum (map f l) + list_sum (map g l))%nat.
Proof.
  induction l as [ | a l IH ]; simpl; [ reflexivity | ].
  rewrite IH. lia.
Qed.

Lemma list_sum_map_zero {R : Type} (l : list R) :
  list_sum (map (fun _ => 0%nat) l) = 0%nat.
Proof. induction l as [ | a l IH ]; simpl; auto. Qed.

(** The number of elements of [reps] that [k] hits. *)
Lemma partition_sum {K R : Type} (f hit : K -> R -> bool) (P : K -> bool)
      (keys : list K) (reps : list R) :
  (forall k r, f k r = hit k r && P k) ->
  (forall k, In k keys ->
             list_sum (map (fun r => if hit k r then 1 else 0)%nat reps)
             = 1%nat) ->
  list_sum (map (fun r => length (filter (fun k => f k r) keys)) reps)
  = length (filter P keys).
Proof.
  intros Hf. induction keys as [ | k keys IH ]; intros Hone; simpl.
  - apply list_sum_map_zero.
  - rewrite (map_ext
               (fun r => length (if f k r
                                 then k :: filter (fun k0 => f k0 r) keys
                                 else filter (fun k0 => f k0 r) keys))
               (fun r => ((if hit k r && P k then 1 else 0)
                          + length (filter (fun k0 => f k0 r) keys))%nat)).
    + rewrite list_sum_map_add, IH by (intros; apply Hone; now right).
      destruct (P k); simpl.
      * rewrite (map_ext _ (fun r => if hit k r then 1%nat else 0%nat)).
        -- rewrite Hone by now left. reflexivity.
        -- intros r. now rewrite andb_true_r.
      * rewrite (map_ext _ (fun _ => 0%nat)).
        -- now rewrite list_sum_map_zero.
        -- intros r. now rewrite andb_false_r.
    + intros r. rewrite Hf. now destruct (hit k r && P k).
Qed.

(** A label hits exactly one element of a duplicate-free list it is in. *)
Lemma hits_one_label (a : string) (l : list string) :
  NoDup l -> In a l ->
  list_sum (map (fun r => if String.eqb a r then 1 else 0)%nat l) = 1%nat.
Proof.
  induction 1 as [ | b l Hnot Hnd IH ]; intros Hin; [ contradiction | ].
  simpl. destruct (String.eqb_spec a b) as [-> | Hne].
  - rewrite (map_ext_in _ (fun _ => 0%nat)).
    + now rewrite list_sum_map_zero.
    + intros r Hr. destruct (String.eqb_spec b r); [ | reflexivity ].
      subst. contradiction.
  - destruct Hin as [-> | Hin]; [ congruence | ]. now apply IH.
Qed.

Lemma ext_eqb_refl (x : extended) : ext_eqb x x = true.
Proof.
  destruct x as [q | [ | ]]; simpl;
    [ apply Qeq_bool_refl | reflexivity | reflexivity ].
Qed.

Lemma ext_eqb_sym (x y : extended) : ext_eqb x y = ext_eqb y x.
Proof.
  destruct x as [q | [ | ]], y as [r | [ | ]]; simpl; try reflexivity.
  apply Qeq_bool_comm.
Qed.

Lemma ext_eqb_trans (x y z : extended) :
  ext_eqb x y = true -> ext_eqb y z = true -> ext_eqb x z = true.
Proof.
  destruct x as [q | [ | ]], y as [r | [ | ]], z as [s | [ | ]]; simpl;
    try discriminate; try reflexivity.
  apply Qeq_bool_trans.
Qed.

Lemma cell_eqb_refl (a : cell extended) : cell_eqb a a = true.
Proof.
  destruct a; simpl;
    [ reflexivity | apply ext_eqb_refl | apply String.eqb_refl ].
Qed.

Lemma cell_eqb_sym (a b : cell extended) : cell_eqb a b = cell_eqb b a.
Proof.
  destruct a, b; simpl; try reflexivity.
  - apply ext_eqb_sym.
  - apply String.eqb_sym.
Qed.

Lemma cell_eqb_trans (a b c : cell extended) :
  cell_eqb a b = true -> cell_eqb b c = true -> cell_eqb a c = true.
Proof.
  destruct a, b, c; simpl; try discriminate; try reflexivity.
  - apply ext_eqb_trans.
  - rewrite !String.eqb_eq. congruence.
Qed.

Lemma hits_insert_sorted {A : Type} (le : A -> A -> bool) (h : A -> bool)
      (a : A) (l : list A) :
  list_sum (map (fun r => if h r then 1 else 0)%nat (insert_sorted le a l))
  = ((if h a then 1 else 0)
     + list_sum (map (fun r => if h r then 1 else 0) l))%nat.
Proof.
  induction l as [ | b l IH ]; simpl; [ reflexivity | ].
  destruct (le a b); simpl; [ reflexivity | ]. rewrite IH. lia.
Qed.

Lemma hits_sorted {A : Type} (le : A -> A -> bool) (h : A -> bool)
      (l : list A) :
  list_sum (map (fun r => if h r then 1 else 0)%nat (sorted le l))
  = list_sum (map (fun r => if h r then 1 else 0)%nat l).
Proof.
  induction l as [ | a l IH ]; simpl; [ reflexivity | ].
  now rewrite hits_insert_sorted, IH.
Qed.

Lemma hits_filter_other (x a : cell extended) (rs : list (cell extended)) :
  cell_eqb x a = false ->
  list_sum (map (fun r => if cell_eqb x r then 1 else 0)%nat
                (filter (fun y => negb (cell_eqb a y)) rs))
  = list_sum (map (fun r => if cell_eqb x r then 1 else 0)%nat rs).
Proof.
  intros Exa. induction rs as [ | r rs IH ]; simpl; [ reflexivity | ].
  destruct (cell_eqb a r) eqn:Ear; simpl.
  - rewrite IH. destruct (cell_eqb x r) eqn:Exr; [ | reflexivity ].
    rewrite cell_eqb_sym in Ear.
    now rewrite (cell_eqb_trans x r a Exr Ear) in Exa.
  - now rewrite IH.
Qed.

(** A cell equal to an element of [l] hits exactly one of the
    representatives [unique_by cell_eqb l]. *)
Lemma hits_one_year (x : cell extended) (l : list (cell extended)) :
  (exists z, In z l /\ cell_eqb x z = true) ->
  list_sum (map (fun r => if cell_eqb x r then 1 else 0)%nat
                (unique_by cell_eqb l)) = 1%nat.
Proof.
  induction l as [ | a l IH ]; intros (z & Hz & Hxz); [ contradiction | ].
  simpl. destruct (cell_eqb x a) eqn:Exa.
  - rewrite (map_ext_in _ (fun _ => 0%nat)).
    + now rewrite list_sum_map_zero.
    + intros r Hr. apply filter_In in Hr. destruct Hr as (_ & Hr).
      apply negb_true_iff in Hr.
      destruct (cell_eqb x r) eqn:Exr; [ | reflexivity ].
      rewrite cell_eqb_sym in Exa.
      now rewrite (cell_eqb_trans a x r Exa Exr) in Hr.
  - rewrite hits_filter_other by exact Exa. apply IH.
    destruct Hz as [<- | Hz]; [ congruence | eauto ].
Qed.

(** ** The pivot and the figure of [attack_types_plot.py] *)

Lemma attack_pivot_Ok (df : DataFrame) (pv : Pivot) :
  attack_pivot df = Ok pv ->
  pivot_index pv
  = sorted cell_leb (unique_by cell_eqb (map fst (grouped df)))
  /\ pivot_columns pv = sorted String.leb (unique (map snd (grouped df)))
  /\ pivot_values pv
     = map (fun y => map (fun a => group_size (grouped df) y a)
                         (pivot_columns pv))
           (pivot_index pv).
Proof.
  unfold attack_pivot.
  destruct (negb (has_column df "iyear")); [ discriminate | ].
  destruct (negb (has_column df "attacktype1_txt")); [ discriminate | ].
  intros H. injection H as <-. simpl. repeat split.
Qed.

Lemma column_position_In (a : string) (cols : list string) :
  In a cols ->
  exists k, column_position a cols = Some k /\ nth_error cols k = Some a.
Proof.
  induction cols as [ | c cols IH ]; intros Hin; [ contradiction | ].
  simpl. destruct (String.eqb_spec c a) as [-> | Hne].
  - exists 0%nat. auto.
  - destruct Hin as [-> | Hin]; [ congruence | ].
    destruct (IH Hin) as (k & Hk & Hnth). exists (S k).
    rewrite Hk. auto.
Qed.

Lemma nth_map_at {A B : Type} (f : A -> B) (l : list A) (k : nat) (a : A)
      (d : B) :
  nth_error l k = Some a -> nth k (map f l) d = f a.
Proof.
  intros H. apply nth_error_nth. now rewrite nth_error_map, H.
Qed.

Lemma pivot_get_column (df : DataFrame) (pv : Pivot) (a : string) :
  attack_pivot df = Ok pv ->
  In a (pivot_columns pv) ->
  pivot_get pv a
  = map (fun y => group_size (grouped df) y a) (pivot_index pv).
Proof.
  intros Hpv Ha. destruct (attack_pivot_Ok df pv Hpv) as (_ & _ & Hvals).
  destruct (column_position_In a _ Ha) as (k & Hk & Hnth).
  unfold pivot_get. rewrite Hk, Hvals, map_map.
  apply map_ext. intros y. now apply nth_map_at.
Qed.

Lemma pivot_columns_spec (df : DataFrame) (pv : Pivot) :
  attack_pivot df = Ok pv ->
  NoDup (pivot_columns pv)
  /\ forall k, In k (grouped df) -> In (snd k) (pivot_columns pv).
Proof.
  intros Hpv. destruct (attack_pivot_Ok df pv Hpv) as (_ & -> & _). split.
  - apply NoDup_sorted, NoDup_unique.
  - intros k Hk. rewrite In_sorted, In_unique. now apply in_map.
Qed.

Lemma filter_true {A : Type} (l : list A) : filter (fun _ => true) l = l.
Proof. now apply filter_all. Qed.

(** X15.  At every year of the index, the stack of the figure is as high
    as the number of records of that year that have an attack type: the
    traces split the incidents of a year among the attack types, losing
    and repeating none. *)
Theorem stack_height_is_the_incident_count_of_the_year
        (df : DataFrame) (pv : Pivot) (j : nat) (y : cell extended) :
  attack_pivot df = Ok pv ->
  nth_error (pivot_index pv) j = Some y ->
  stack_height (make_figure pv) j = year_count df y.
Proof.
  intros Hpv Hj. destruct (pivot_columns_spec df pv Hpv) as (Hnd & Hcov).
  unfold stack_height, make_figure, year_count. simpl. rewrite map_map.
  rewrite (map_ext_in _ (fun a => group_size (grouped df) y a)).
  - unfold group_size.
    apply (partition_sum
             (fun k a => cell_eqb (fst k) y && String.eqb (snd k) a)
             (fun k a => String.eqb (snd k) a)
             (fun k => cell_eqb (fst k) y)).
    + intros k a. apply andb_comm.
    + intros k Hk. apply hits_one_label; auto.
  - intros a Ha. simpl. rewrite (pivot_get_column df pv a Hpv Ha).
    exact (nth_map_at (fun y0 => group_size (grouped df) y0 a)
                      (pivot_index pv) j y 0%nat Hj).
Qed.

(** X16.  The values of every trace add up to the number of records of the
    trace's attack type that have a year, and the values of all the traces
    together add up to the number of records that have both a year and an
    attack type. *)
Theorem trace_totals_are_the_incident_counts_of_the_types
        (df : DataFrame) (pv : Pivot) :
  attack_pivot df = Ok pv ->
  (forall t, In t (fig_traces (make_figure pv)) ->
             list_sum (trace_y t) = type_count df (trace_name t))
  /\ list_sum (map (fun t => list_sum (trace_y t))
                   (fig_traces (make_figure pv)))
     = length (grouped df).
Proof.
  intros Hpv. destruct (pivot_columns_spec df pv Hpv) as (Hnd & Hcov).
  destruct (attack_pivot_Ok df pv Hpv) as (Hindex & _ & _).
  assert (Htrace : forall a, In a (pivot_columns pv) ->
                             list_sum (pivot_get pv a) = type_count df a).
  { intros a Ha. rewrite (pivot_get_column df pv a Hpv Ha).
    unfold group_size, type_count.
    apply (partition_sum
             (fun k y => cell_eqb (fst k) y && String.eqb (snd k) a)
             (fun k y => cell_eqb (fst k) y)
             (fun k => String.eqb (snd k) a)).
    - reflexivity.
    - intros k Hk. rewrite Hindex, hits_sorted. apply hits_one_year.
      exists (fst k). split; [ now apply in_map | apply cell_eqb_refl ]. }
  split.
  - intros t Ht. simpl in Ht. apply in_map_iff in Ht.
    destruct Ht as (a & <- & Ha). simpl. now apply Htrace.
  - simpl. rewrite map_map. simpl.
    rewrite (map_ext_in _ (type_count df)) by exact Htrace.
    unfold type_count.
    transitivity (length (filter (fun _ => true) (grouped df)));
      [ | now rewrite filter_true ].
    apply (partition_sum
             (fun k a => String.eqb (snd k) a)
             (fun k a => String.eqb (snd k) a)
             (fun _ => true)).
    + intros k a. now rewrite andb_true_r.
    + intros k Hk. apply hits_one_label; auto.
Qed.

(** X17.  The figure is well formed: it has one trace per attack type,
    under pairwise distinct names; every trace has the years of the index
    as x and one y per x; and every button carries one [stackgroup] and one
    [groupnorm] entry per trace. *)
Theorem figure_is_well_formed (df : DataFrame) (pv : Pivot) :
  attack_pivot df = Ok pv ->
  map trace_name (fig_traces (make_figure pv)) = pivot_columns pv
  /\ NoDup (map trace_name (fig_traces (make_figure pv)))
  /\ (forall t, In t (fig_traces (make_figure pv)) ->
                trace_x t = pivot_index pv
                /\ length (trace_y t) = length (trace_x t))
  /\ (forall b, In b (fig_buttons (make_figure pv)) ->
                length (button_stackgroup b)
                = length (fig_traces (make_figure pv))
                /\ length (button_groupnorm b)
                   = length (fig_traces (make_figure pv))).
Proof.
  intros Hpv. destruct (pivot_columns_spec df pv Hpv) as (Hnd & _).
  assert (Hnames : map trace_name (fig_traces (make_figure pv))
                   = pivot_columns pv).
  { simpl. rewrite map_map. simpl. apply map_id. }
  split; [ exact Hnames | ]. split; [ now rewrite Hnames | ]. split.
  - intros t Ht. simpl in Ht. apply in_map_iff in Ht.
    destruct Ht as (a & <- & Ha). simpl. split; [ reflexivity | ].
    rewrite (pivot_get_column df pv a Hpv Ha). apply length_map.
  - intros b Hb. simpl in Hb |- *. rewrite length_map.
    destruct Hb as [<- | [<- | [<- | []]]]; simpl;
      now rewrite !repeat_length.
Qed.

(** X18.  The "Stacked" button keeps the stacking the figure starts
    with: its [stackgroup] entries are those of the traces as built and its
    y-axis title is the initial one; the traces are built without a
    [groupnorm], and the button sets the empty text for every trace. *)
Theorem stacked_button_keeps_the_initial_stacking (pv : Pivot) :
  exists b rest,
    fig_buttons (make_figure pv) = b :: rest
    /\ button_label b = "Stacked"%string
    /\ button_stackgroup b
       = map trace_stackgroup (fig_traces (make_figure pv))
    /\ Forall (fun t => trace_groupnorm t = None)
              (fig_traces (make_figure pv))
    /\ button_groupnorm b
       = repeat EmptyString (length (fig_traces (make_figure pv)))
    /\ button_yaxis_title b = fig_yaxis_title (make_figure pv).
Proof.
  eexists. eexists. split; [ reflexivity | ]. simpl.
  split; [ reflexivity | ].
  rewrite !map_map, length_map. simpl.
  split; [ | split; [ | split; reflexivity ] ].
  - induction (pivot_columns pv) as [ | a l IH ]; simpl;
      [ reflexivity | now f_equal ].
  - apply Forall_map, Forall_forall. intros a _. reflexivity.
Qed.

(** ** The further properties on the sample files *)

Lemma sample_draw_is_valid :
  (2 < length (retained Sample.parse_float Sample.parse_year Sample.exact
                        Sample.incidents))%nat ->
  valid_choice
    (length (retained Sample.parse_float Sample.parse_year Sample.exact
                      Sample.incidents)) 2
    (Sample.choice
       (length (retained Sample.parse_float Sample.parse_year Sample.exact
                         Sample.incidents)) 2).
Proof.
  intros _. repeat split.
  - repeat constructor; simpl; intuition discriminate.
  - repeat constructor.
Defined.

Lemma sample_retained_not_empty :
  retained Sample.parse_float Sample.parse_year Sample.exact
           Sample.incidents <> [].
Proof. discriminate. Defined.

Lemma sample_index_labels_distinct :
  NoDup (map Raw.ix (records Sample.incidents)).
Proof.
  repeat constructor; simpl; intuition discriminate.
Defined.

Lemma sample_page :
  create_visualization Sample.palette20 Sample.palette256
                       Sample.show_Z Sample.show_Z Sample.show_Q
                       Sample.prepared
  = Ok Sample.page.
Proof. reflexivity. Defined.

Lemma sample_pivot : attack_pivot Sample.incidents = Ok Cases.pivot.
Proof. reflexivity. Defined.

Lemma load_returns_min_of_limit_and_retained_witness :
  exists out,
    load_and_prepare_data Sample.parse_float Sample.parse_year
                          Sample.choice Sample.exact
                          Sample.incidents 2 = Ok out
    /\ length out = 2%nat.
Proof.
  destruct (load_returns_min_of_limit_and_retained
              Sample.parse_float Sample.parse_year Sample.choice
              Sample.exact Sample.incidents 2
              eq_refl (le_n_S 0 1 (le_S 0 0 (le_n 0)))
              sample_retained_not_empty eq_refl sample_draw_is_valid)
    as (out & Hload & Hlen & _).
  exists out. split; [ exact Hload | exact Hlen ].
Defined.

Lemma prepared_index_labels_distinct_witness :
  NoDup (map Prepared.ix
             (finite_rows
                (sample_if_large Sample.choice 2
                   (retained Sample.parse_float Sample.parse_year
                             Sample.exact Sample.incidents)))).
Proof.
  exact (prepared_index_labels_distinct
           Sample.parse_float Sample.parse_year Sample.choice Sample.exact
           Sample.incidents 2 _
           sample_index_labels_distinct sample_draw_is_valid eq_refl).
Defined.

Lemma no_draw_without_usable_year :
  (10 < length (retained Sample.parse_float Sample.parse_year Sample.exact
                         Cases.no_usable_year))%nat ->
  valid_choice
    (length (retained Sample.parse_float Sample.parse_year Sample.exact
                      Cases.no_usable_year)) 10
    (Sample.choice
       (length (retained Sample.parse_float Sample.parse_year Sample.exact
                         Cases.no_usable_year)) 10).
Proof. simpl. intros H. exfalso. lia. Defined.

Lemma load_raises_exactly_on_empty_result_witness :
  load_and_prepare_data Sample.parse_float Sample.parse_year
                          Sample.choice Sample.exact
                        Cases.no_usable_year 10
  = Raise (ValueError "cannot convert float NaN to integer").
Proof.
  apply (proj2 (load_raises_exactly_on_empty_result
                  Sample.parse_float Sample.parse_year Sample.choice
                  Sample.exact Cases.no_usable_year 10
                  no_draw_without_usable_year)).
  split; [ reflexivity | left; reflexivity ].
Defined.

Lemma cases_unharmed :
  load_and_prepare_data Sample.parse_float Sample.parse_year Sample.choice
                        Sample.exact Cases.no_casualties 10
  = Ok Cases.unharmed.
Proof. reflexivity. Defined.

Lemma cases_no_casualties :
  Forall (fun q => Retained.total_casualties q == 0)
         (retained Sample.parse_float Sample.parse_year Sample.exact
                   Cases.no_casualties).
Proof. repeat constructor. Defined.

Lemma circles_without_casualties_have_size_10_witness :
  Forall (fun p => Prepared.circle_size p = 10) Cases.unharmed.
Proof.
  apply Forall_forall.
  exact (circles_without_casualties_have_size_10
           Sample.parse_float Sample.parse_year Sample.choice Sample.exact
           Cases.no_casualties 10 Cases.unharmed cases_unharmed
           (proj1 (Forall_forall _ _) cases_no_casualties)).
Defined.

Lemma every_row_gets_a_palette_colour_witness :
  Forall (fun r => exists c,
              Shown.color r = Some c
              /\ (In c Sample.palette20 \/ In c Sample.palette256))
         Sample.shown.
Proof.
  apply Forall_forall. intros r Hr.
  exact (every_row_gets_a_palette_colour
           Sample.palette20 Sample.palette256 Sample.prepared r
           eq_refl eq_refl Hr).
Defined.

Lemma sample_palette20_distinct : NoDup Sample.palette20.
Proof.
  assert (E : nodup string_dec Sample.palette20 = Sample.palette20)
    by (vm_compute; reflexivity).
  rewrite <- E. apply NoDup_nodup.
Defined.

Lemma cases_palette256_distinct : NoDup Cases.palette256.
Proof.
  assert (E : nodup string_dec Cases.palette256 = Cases.palette256)
    by (vm_compute; reflexivity).
  rewrite <- E. apply NoDup_nodup.
Defined.

Lemma different_targets_get_different_colours_witness :
  dict_get (fst (create_color_mapping Sample.palette20 Cases.palette256
                                      Sample.prepared))
           "Police"
  <> dict_get (fst (create_color_mapping Sample.palette20 Cases.palette256
                                         Sample.prepared))
              "Business".
Proof.
  apply (different_targets_get_different_colours
           Sample.palette20 Cases.palette256 Sample.prepared
           Sample.first_row
           (nth 1 Sample.prepared Sample.first_row)
           eq_refl eq_refl
           sample_palette20_distinct cases_palette256_distinct).
  - vm_compute. lia.
  - left. reflexivity.
  - right. left. reflexivity.
  - discriminate.
Defined.

Lemma beyond_256_targets_one_colour_witness :
  dict_get (fst (create_color_mapping Sample.palette20 Cases.palette256
                                      Cases.many_targets))
           (Sample.show_Z 0)
  = Some (nth 0 Cases.palette256 EmptyString).
Proof.
  apply (beyond_256_targets_one_colour
           Sample.palette20 Cases.palette256 Cases.many_targets
           (nth 0 Cases.many_targets Sample.first_row)
           eq_refl eq_refl).
  - apply Nat.ltb_lt. vm_compute. reflexivity.
  - left. reflexivity.
Defined.

Lemma checkbox_labels_ascending_and_all_checked_witness :
  Sorted (fun a b => String.leb a b = true) (checkbox_labels Sample.page)
  /\ selected_labels Sample.page = checkbox_labels Sample.page.
Proof.
  exact (checkbox_labels_ascending_and_all_checked
           Sample.palette20 Sample.palette256
           Sample.show_Z Sample.show_Z Sample.show_Q
           Sample.prepared Sample.page sample_page).
Defined.

Lemma prepared_dataset_is_visualized_witness :
  exists page,
    create_visualization Sample.palette20 Sample.palette256
                         Sample.show_Z Sample.show_Z Sample.show_Q
                         Sample.prepared = Ok page
    /\ length (Columns.nkill (source_data page)) = length Sample.prepared
    /\ length (Columns.nwound (source_data page)) = length Sample.prepared
    /\ (1900 <= slider_start page <= slider_end page)%Z.
Proof.
  exact (prepared_dataset_is_visualized
           Sample.parse_float Sample.parse_year Sample.choice Sample.exact
           Sample.palette20 Sample.palette256
           Sample.show_Z Sample.show_Z Sample.show_Q
           Sample.incidents 10 Sample.prepared sample_prepared).
Defined.

Lemma sample_years_whole : Forall whole_year Sample.prepared.
Proof.
  repeat constructor.
  - now exists 1998%Z.
  - now exists 2001%Z.
  - now exists 2010%Z.
  - now exists 2012%Z.
Defined.

Lemma sample_filtered_same_document :
  same_document Sample.page Sample.page_filtered.
Proof. repeat split. Defined.

Lemma reset_then_filter_shows_everything_witness :
  exists q',
    callback Sample.exact Sample.show_Q Sample.show_Q
             (reset_click Sample.page_filtered)
    = Some q'
    /\ source_data q' = original_data Sample.page.
Proof.
  exact (reset_then_filter_shows_everything
           Sample.exact Sample.palette20 Sample.palette256
           Sample.show_Z Sample.show_Z Sample.show_Q
           Sample.show_Q Sample.show_Q
           Sample.prepared Sample.page Sample.page_filtered
           sample_page sample_years_whole sample_filtered_same_document).
Defined.

Lemma callback_is_idempotent_witness :
  exists p1 p2,
    callback Sample.exact Sample.show_Q Sample.show_Q Sample.page_filtered
    = Some p1
    /\ callback Sample.exact Sample.show_Q Sample.show_Q p1 = Some p2
    /\ displayed p2 = displayed p1.
Proof.
  destruct (callback Sample.exact Sample.show_Q Sample.show_Q
                     Sample.page_filtered)
    as [p1 | ] eqn:E; [ | vm_compute in E; discriminate E ].
  destruct (callback_is_idempotent
              Sample.exact Sample.show_Q Sample.show_Q Sample.page_filtered p1
              Sample.shown eq_refl E)
    as (p2 & H2 & Hd & _).
  exists p1, p2. auto.
Defined.

Lemma exact_offsets :
  (forall v, float_sub Sample.exact v 1 <= v)
  /\ (forall v, v <= float_add Sample.exact v 1).
Proof. split; intros v; simpl; lra. Qed.

Lemma displayed_points_lie_within_the_ranges_witness :
  exists p',
    callback Sample.exact Sample.show_Q Sample.show_Q Sample.page_filtered
    = Some p'
    /\ Forall (within (x_range p')) (Columns.nkill (source_data p')).
Proof.
  destruct (callback Sample.exact Sample.show_Q Sample.show_Q
                     Sample.page_filtered)
    as [p' | ] eqn:E; [ | vm_compute in E; discriminate E ].
  exists p'. split; [ reflexivity | ]. apply Forall_forall.
  exact (proj1 (displayed_points_lie_within_the_ranges
                  Sample.exact Sample.show_Q Sample.show_Q
                  Sample.page_filtered p' Sample.shown
                  (proj1 exact_offsets) (proj2 exact_offsets)
                  eq_refl E)).
Defined.

Lemma filtered_legend_within_checked_categories_witness :
  In "Business"%string (selected_labels Sample.page_filtered)
  /\ In "Business"%string (checkbox_labels Sample.page_filtered).
Proof.
  destruct (callback Sample.exact Sample.show_Q Sample.show_Q
                     Sample.page_filtered)
    as [p' | ] eqn:E; [ | vm_compute in E; discriminate E ].
  assert (Ht : In "Business"%string (legend_labels p')).
  { vm_compute in E. injection E as <-. left. reflexivity. }
  destruct (filtered_legend_within_checked_categories
              Sample.exact Sample.show_Q Sample.show_Q Sample.page_filtered p'
              Sample.shown 2000 2011 "Business" eq_refl eq_refl E Ht)
    as (H1 & H2 & _).
  split; [ exact H1 | exact H2 ].
Defined.

Lemma stack_height_is_the_incident_count_of_the_year_witness :
  stack_height Cases.figure 1 = year_count Sample.incidents (Num (Finite 1998)).
Proof.
  exact (stack_height_is_the_incident_count_of_the_year
           Sample.incidents Cases.pivot 1 (Num (Finite 1998))
           sample_pivot eq_refl).
Defined.

Lemma trace_totals_are_the_incident_counts_of_the_types_witness :
  list_sum (map (fun t => list_sum (trace_y t)) (fig_traces Cases.figure))
  = length (grouped Sample.incidents).
Proof.
  exact (proj2 (trace_totals_are_the_incident_counts_of_the_types
                  Sample.incidents Cases.pivot sample_pivot)).
Defined.

Lemma figure_is_well_formed_witness :
  map trace_name (fig_traces Cases.figure) = pivot_columns Cases.pivot.
Proof.
  exact (proj1 (figure_is_well_formed
                  Sample.incidents Cases.pivot sample_pivot)).
Defined.
